(** * A shallow embedding of [trello_cli.py]

    The program is a command-line client of the Trello REST API.  Its two
    classes are embedded one module each:

    - [Trello]: the HTTP layer ([request] and the five public operations);
    - [Cli]: option handling ([getConfig]) and dispatch ([action]).

    Python strings are modelled by [string]; a character is a code point
    below 256.  Python exceptions are modelled by the type [exn], and a
    computation that may raise by [outcome].  The only effect of the
    program besides its result is the HTTP traffic: a computation of type
    [M A] yields its outcome together with the list of HTTP calls it has
    issued, in order.

    What lies outside the program is taken as a section variable: the
    transport ([requests.get] / [requests.post]) and the decoder
    ([json.loads]).  [parser.parse_args()] is embedded for the command
    lines on which it returns a namespace; the command lines on which
    argparse itself ends the process ([--help], [--version], malformed
    options) never reach the code embedded here. *)

From Stdlib Require Import String Ascii List ZArith Bool Lia DecimalString.
Import ListNotations.
Local Open Scope list_scope.
Local Open Scope string_scope.

Set Implicit Arguments.
Local Set Warnings "-register-all".

(** ** Python values and exceptions *)

Module Py.

(** The exceptions that the program raises or lets through. *)
Inductive exn : Type :=
| CliException (msg : string)         (* class CliException(Exception) *)
| ApiRequestException (msg : string)  (* class ApiRequestException(Exception) *)
| UnboundLocalError (name : string)   (* a local read before assignment *)
| JSONDecodeError                     (* json.loads on a malformed text *)
| TypeError                           (* an operand of the wrong type *)
| KeyError (key : string)             (* a dict without the key *)
| RequestException (msg : string).    (* raised inside the transport *)

Inductive outcome (A : Type) : Type :=
| Return (a : A)
| Raise (e : exn).
Arguments Return {A} a.
Arguments Raise {A} e.

(** The value returned by [json.loads]: a tree of lists, dicts, strings,
    numbers, booleans and [None].  A dict is kept as the list of its items
    in insertion order; a float keeps its lexeme. *)
Inductive json : Type :=
| JNull
| JBool (b : bool)
| JInt (z : Z)
| JFloat (lexeme : string)
| JStr (s : string)
| JArr (items : list json)
| JObj (items : list (string * json)).

(** [d[k]] on the items of a dict. *)
Fixpoint dict_get (items : list (string * json)) (k : string) : option json :=
  match items with
  | [] => None
  | (k', v) :: rest => if String.eqb k' k then Some v else dict_get rest k
  end.

(** [v[k]] for a string literal [k]: only a dict can be indexed by a
    string; a list or a string asks for an integer index, the other values
    are not subscriptable. *)
Definition subscript (v : json) (k : string) : outcome json :=
  match v with
  | JObj items =>
      match dict_get items k with
      | Some x => Return x
      | None => Raise (KeyError k)
      end
  | _ => Raise TypeError
  end.

(** The one-character strings of [s], as [for c in s] yields them. *)
Fixpoint chars (s : string) : list json :=
  match s with
  | EmptyString => []
  | String c t => JStr (String c EmptyString) :: chars t
  end.

(** [for x in v]: the elements of a list, the keys of a dict, the
    characters of a string; the other values are not iterable. *)
Definition iterate (v : json) : outcome (list json) :=
  match v with
  | JArr items => Return items
  | JObj items => Return (map (fun kv => JStr (fst kv)) items)
  | JStr s => Return (chars s)
  | _ => Raise TypeError
  end.

(** [v + s] for a string [s]: defined when [v] is a string. *)
Definition add_str (v : json) (s : string) : outcome string :=
  match v with
  | JStr a => Return (a ++ s)
  | _ => Raise TypeError
  end.

(** [s + v] for a string [s]: defined when [v] is a string. *)
Definition str_add (s : string) (v : json) : outcome string :=
  match v with
  | JStr b => Return (s ++ b)
  | _ => Raise TypeError
  end.

(** Truth value of an optional string: [None] and [""] are false. *)
Definition truthy (v : option string) : bool :=
  match v with
  | None => false
  | Some EmptyString => false
  | Some (String _ _) => true
  end.

(** [str(n)] for an int, as an f-string formats it. *)
Definition str_of_int (n : Z) : string :=
  NilZero.string_of_int (Z.to_int n).

(** [sep.join(parts)] *)
Definition join (sep : string) (parts : list string) : string :=
  String.concat sep parts.

(** The class [\s] of a str pattern, on code points below 256:
    TAB LF VT FF CR, FS GS RS US, SPACE, NEL and NBSP. *)
Definition is_space (c : ascii) : bool :=
  let n := N_of_ascii c in
  ((9 <=? n) && (n <=? 13) || (28 <=? n) && (n <=? 32)
   || (n =? 133) || (n =? 160))%N.

(** Length of the longest prefix of [s] made of [\s] characters. *)
Fixpoint space_run (s : string) : nat :=
  match s with
  | String c t => if is_space c then S (space_run t) else 0
  | EmptyString => 0
  end.

Fixpoint drop (n : nat) (s : string) : string :=
  match n, s with
  | S k, String _ t => drop k t
  | _, _ => s
  end.

(** [re.match(r"\s+,\s+", s)]: the length of the match at the start of
    [s], if there is one.  Both [\s+] are greedy; the first one cannot
    give characters back, since what follows it must be a comma. *)
Definition match_separator (s : string) : option nat :=
  let a := space_run s in
  match a, drop a s with
  | S _, String "," t =>
      match space_run t with
      | S b => Some (a + 1 + S b)
      | O => None
      end
  | _, _ => None
  end.

(** [re.split(r"\s+,\s+", s)]: scan from the left; at the first position
    where the separator matches, close the current piece and resume after
    the match.  [skip] counts the characters of a match still to pass,
    [piece] holds the characters of the current piece. *)
Fixpoint split_from (skip : nat) (piece : string) (s : string) : list string :=
  match s with
  | EmptyString => [piece]
  | String c t =>
      match skip with
      | S k => split_from k piece t
      | O =>
          match match_separator s with
          | Some (S k) => piece :: split_from k "" t
          | _ => split_from 0 (piece ++ String c "") t
          end
      end
  end.

Definition re_split_spaced_comma (s : string) : list string :=
  split_from 0 "" s.

End Py.
Export Py.

(** ** HTTP traffic *)

Inductive verb : Type := GET | POST.

(** A call of [requests.get] or [requests.post]: [url], [headers=] and
    [params=] ([None] when [request] is called without a query). *)
Record http_call : Type := HttpCall {
  call_verb : verb;
  call_url : string;
  call_headers : list (string * string);
  call_params : option (list (string * string))
}.

(** The part of a [requests.Response] that the program reads. *)
Record response : Type := Response {
  status_code : Z;
  text : string
}.

(** [requests.get] and [requests.post] return a response or raise. *)
Inductive http_result : Type :=
| Responded (r : response)
| Failed (msg : string).

(** A computation: its outcome and the HTTP calls it issued, in order. *)
Definition M (A : Type) : Type := (outcome A * list http_call)%type.

Definition ret {A} (a : A) : M A := (Return a, []).
Definition raise {A} (e : exn) : M A := (Raise e, []).
Definition lift {A} (o : outcome A) : M A := (o, []).

Definition bind {A B} (m : M A) (f : A -> M B) : M B :=
  match m with
  | (Return a, calls) => let (r, calls') := f a in (r, (calls ++ calls')%list)
  | (Raise e, calls) => (Raise e, calls)
  end.

Notation "x <- m ;; k" := (bind m (fun x => k))
  (at level 61, m at next level, right associativity).

(** [for x in xs: acc = body(x, acc)] *)
Fixpoint for_each {A B} (xs : list A) (acc : B) (body : A -> B -> M B) : M B :=
  match xs with
  | [] => ret acc
  | x :: rest => acc' <- body x acc ;; for_each rest acc' body
  end.

(** ** class Trello *)

Module Trello.

Definition BASE_URI : string := "https://api.trello.com".
Definition HEADERS : list (string * string) := [("Accept", "application/json")].

(** The instance: [self.key] and [self.token]. *)
Record t : Type := init { key : string; token : string }.

Section Transport.

Variable send : http_call -> http_result.
Variable json_loads : string -> option json.

(** One call of [requests.get] or [requests.post]; the call is recorded
    whether it returns or raises. *)
Definition perform (c : http_call) : M response :=
  match send c with
  | Responded r => (Return r, [c])
  | Failed msg => (Raise (RequestException msg), [c])
  end.

(** [json.loads(s)] *)
Definition loads (s : string) : M json :=
  match json_loads s with
  | Some v => ret v
  | None => raise JSONDecodeError
  end.

(** [def request(self, method, uri, query=None)].  The local [r] is
    assigned by neither branch when [method] is another string; it is
    kept as an option and reading it unassigned raises. *)
Definition request (self : t) (method uri : string)
    (query : option (list (string * string))) : M json :=
  let url := BASE_URI ++ uri ++ "?key=" ++ key self ++ "&token=" ++ token self in
  r <- (if "GET" =? method then
          x <- perform (HttpCall GET url HEADERS query) ;; ret (Some x)
        else if "POST" =? method then
          x <- perform (HttpCall POST url HEADERS query) ;; ret (Some x)
        else ret None) ;;
  match r with
  | None => raise (UnboundLocalError "r")
  | Some r =>
      if (200 =? status_code r)%Z then
        parsed <- loads (text r) ;;
        ret parsed
      else
        raise (ApiRequestException
                 ("Trello API returned status code " ++ str_of_int (status_code r)
                  ++ ". response body: " ++ text r))
  end.

Definition listBoards (self : t) : M json :=
  boards <- request self "GET" "/1/members/me/boards" None ;;
  ret boards.

Definition listColumns (self : t) (boardId : string) : M json :=
  lists <- request self "GET" ("/1/boards/" ++ boardId ++ "/lists") None ;;
  ret lists.

Definition listLabels (self : t) (boardId : string) : M json :=
  labels <- request self "GET" ("/1/boards/" ++ boardId ++ "/labels") None ;;
  ret labels.

Definition addCard (self : t) (listId name description : string)
    (labels : option (list string)) : M json :=
  let labels := match labels with None => [] | Some l => l end in
  card <- request self "POST" "/1/cards"
            (Some [("idList", listId);
                   ("name", name);
                   ("desc", description);
                   ("idLabels", join "," labels)]) ;;
  ret card.

Definition addComment (self : t) (cardId comment : string) : M json :=
  comment <- request self "POST" ("/1/cards/" ++ cardId ++ "/actions/comments")
               (Some [("id", cardId);
                      ("text", comment)]) ;;
  ret comment.

End Transport.

End Trello.

(** ** class Cli *)

Module Cli.

(** The options as they stand on the command line: a valued option is
    [Some v] when given, a [store_true] option is [true] when given. *)
Record command_line : Type := CommandLine {
  opt_key : option string;
  opt_token : option string;
  opt_list_boards : bool;
  opt_list_columns : bool;
  opt_add_card : bool;
  opt_add_comment : bool;
  opt_list_labels : bool;
  opt_board_id : option string;
  opt_list_id : option string;
  opt_card_id : option string;
  opt_name : option string;
  opt_description : option string;
  opt_comment : option string;
  opt_label_ids : option string
}.

(** [os.environ], as far as the program reads it. *)
Record environ : Type := Environ {
  TRELLO_API_KEY : option string;
  TRELLO_API_TOKEN : option string
}.

(** The namespace returned by [parser.parse_args()]. *)
Record namespace : Type := Namespace {
  ns_key : option string;
  ns_token : option string;
  ns_list_boards : bool;
  ns_list_columns : bool;
  ns_list_labels : bool;
  ns_add_card : bool;
  ns_add_comment : bool;
  ns_board_id : option string;
  ns_list_id : option string;
  ns_card_id : option string;
  ns_name : option string;
  ns_description : option string;
  ns_comment : option string;
  ns_label_ids : string
}.

(** The value of an option: what the command line gives, else [default]. *)
Definition with_default {A} (given : option A) (default : A) : A :=
  match given with
  | Some v => v
  | None => default
  end.

(** [parser.parse_args()] with the defaults of the [add_argument] calls:
    the environment for [--key] and [--token], [""] for [--label_ids],
    [None] for the other valued options. *)
Definition parse_args (env : environ) (cl : command_line) : namespace :=
  {| ns_key := match opt_key cl with Some v => Some v | None => TRELLO_API_KEY env end;
     ns_token := match opt_token cl with Some v => Some v | None => TRELLO_API_TOKEN env end;
     ns_list_boards := opt_list_boards cl;
     ns_list_columns := opt_list_columns cl;
     ns_list_labels := opt_list_labels cl;
     ns_add_card := opt_add_card cl;
     ns_add_comment := opt_add_comment cl;
     ns_board_id := opt_board_id cl;
     ns_list_id := opt_list_id cl;
     ns_card_id := opt_card_id cl;
     ns_name := opt_name cl;
     ns_description := opt_description cl;
     ns_comment := opt_comment cl;
     ns_label_ids := with_default (opt_label_ids cl) "" |}.

(** The dict [args] built by [getConfig]. *)
Record args : Type := Args {
  key : string;
  token : string;
  list_boards : bool;
  list_columns : bool;
  list_labels : bool;
  add_card : bool;
  add_comment : bool;
  board_id : option string;
  list_id : option string;
  card_id : option string;
  name : option string;
  description : option string;
  comment : option string;
  label_ids : list string
}.

Definition CREDENTIALS_MESSAGE : string :=
  "--key and --token are required to interact with the Trello API.".

(** [def getConfig(self)].  Past the test on [parsed.key] and
    [parsed.token] both are strings, which is what [args] records. *)
Definition getConfig (env : environ) (cl : command_line) : outcome args :=
  let parsed := parse_args env cl in
  if negb (truthy (ns_key parsed)) || negb (truthy (ns_token parsed)) then
    Raise (CliException CREDENTIALS_MESSAGE)
  else
    match ns_key parsed, ns_token parsed with
    | Some k, Some t =>
        Return {| key := k;
                  token := t;
                  list_boards := ns_list_boards parsed;
                  list_columns := ns_list_columns parsed;
                  list_labels := ns_list_labels parsed;
                  add_card := ns_add_card parsed;
                  add_comment := ns_add_comment parsed;
                  board_id := ns_board_id parsed;
                  list_id := ns_list_id parsed;
                  card_id := ns_card_id parsed;
                  name := ns_name parsed;
                  description := ns_description parsed;
                  comment := ns_comment parsed;
                  label_ids := re_split_spaced_comma (ns_label_ids parsed) |}
    | _, _ => Raise (CliException CREDENTIALS_MESSAGE)
    end.

(** A newline, ["\n"]. *)
Definition LF : string := String "010"%char EmptyString.

Definition COLUMNS_MESSAGE : string := "--board_id is required to list columns.".
Definition LABELS_MESSAGE : string := "--board_id is required to list labels.".
Definition CARD_MESSAGE : string :=
  "--list_id, --name, and --description are required to add a card.".
Definition COMMENT_MESSAGE : string :=
  "--card_id and --comment are required to add a comment.".
Definition NO_ACTION_MESSAGE : string :=
  "Please specify an action:" ++ LF
  ++ LF
  ++ "  --list-boards" ++ LF
  ++ "  --list-columns" ++ LF
  ++ "  --list-labels" ++ LF
  ++ "  --add-card" ++ LF
  ++ "  --add-comment" ++ LF
  ++ "    " ++ LF
  ++ "or specify --help for more information.".

(** The string held by an optional value that has passed a truth test. *)
Definition held (v : option string) : string :=
  match v with
  | Some s => s
  | None => ""
  end.

(** [out += x["id"] + " " + x["name"] + "\n"], operands left to right. *)
Definition id_name_line (x : json) (out : string) : M string :=
  i <- lift (subscript x "id") ;;
  a <- lift (add_str i " ") ;;
  n <- lift (subscript x "name") ;;
  b <- lift (str_add a n) ;;
  ret (out ++ (b ++ LF)).

(** [out += label["id"] + " " + label["name"] + " " + label["color"] + "\n"] *)
Definition id_name_color_line (label : json) (out : string) : M string :=
  i <- lift (subscript label "id") ;;
  a <- lift (add_str i " ") ;;
  n <- lift (subscript label "name") ;;
  b <- lift (str_add a n) ;;
  c <- lift (subscript label "color") ;;
  d <- lift (str_add (b ++ " ") c) ;;
  ret (out ++ (d ++ LF)).

(** [out += x["id"] + " added.\n"] *)
Definition added_line (x : json) (out : string) : M string :=
  i <- lift (subscript x "id") ;;
  a <- lift (add_str i (" added." ++ LF)) ;;
  ret (out ++ a).

Section Transport.

Variable send : http_call -> http_result.
Variable json_loads : string -> option json.

(** [def action(self, args)] *)
Definition action (args : args) : M string :=
  let out := "" in
  let trello := Trello.init (key args) (token args) in
  if list_boards args then
    boards <- Trello.listBoards send json_loads trello ;;
    items <- lift (iterate boards) ;;
    for_each items out id_name_line

  else if list_columns args then
    if negb (truthy (board_id args)) then
      raise (CliException COLUMNS_MESSAGE)
    else
      lists <- Trello.listColumns send json_loads trello (held (board_id args)) ;;
      items <- lift (iterate lists) ;;
      for_each items out id_name_line

  else if list_labels args then
    if negb (truthy (board_id args)) then
      raise (CliException LABELS_MESSAGE)
    else
      labels <- Trello.listLabels send json_loads trello (held (board_id args)) ;;
      items <- lift (iterate labels) ;;
      for_each items out id_name_color_line

  else if add_card args then
    if negb (truthy (list_id args)) || negb (truthy (name args))
       || negb (truthy (description args)) then
      raise (CliException CARD_MESSAGE)
    else
      card <- Trello.addCard send json_loads trello
                (held (list_id args))
                (held (name args))
                (held (description args))
                (Some (label_ids args)) ;;
      added_line card out

  else if add_comment args then
    if negb (truthy (card_id args)) || negb (truthy (comment args)) then
      raise (CliException COMMENT_MESSAGE)
    else
      comment <- Trello.addComment send json_loads trello
                   (held (card_id args))
                   (held (comment args)) ;;
      added_line comment out

  else
    raise (CliException NO_ACTION_MESSAGE).

(** The body of [try] in [main]: the text handed to [print]. *)
Definition main_try (env : environ) (cl : command_line) : M string :=
  a <- lift (getConfig env cl) ;;
  out <- action a ;;
  ret out.

End Transport.

End Cli.

(** ** Notions used by the statements *)

(** [sub] occurs in [s]. *)
Definition contains (sub s : string) : Prop :=
  exists before after, s = before ++ sub ++ after.

(** The same, as a test: [sub] is a prefix of [s], and [sub] occurs in [s]. *)
Fixpoint starts_with (sub s : string) : bool :=
  match sub, s with
  | EmptyString, _ => true
  | String a sub', String b s' => Ascii.eqb a b && starts_with sub' s'
  | String _ _, EmptyString => false
  end.

Fixpoint occurs (sub s : string) : bool :=
  starts_with sub s
  || match s with
     | EmptyString => false
     | String _ t => occurs sub t
     end.

(** The five operations of [Trello], with their arguments. *)
Inductive operation : Type :=
| ListBoards
| ListColumns (boardId : string)
| ListLabels (boardId : string)
| AddCard (listId name description : string) (labels : option (list string))
| AddComment (cardId comment : string).

Definition run_operation (send : http_call -> http_result)
    (json_loads : string -> option json) (self : Trello.t) (op : operation) : M json :=
  match op with
  | ListBoards => Trello.listBoards send json_loads self
  | ListColumns b => Trello.listColumns send json_loads self b
  | ListLabels b => Trello.listLabels send json_loads self b
  | AddCard l n d ls => Trello.addCard send json_loads self l n d ls
  | AddComment c t => Trello.addComment send json_loads self c t
  end.

(** The URL built by [request] for a path. *)
Definition url_of (self : Trello.t) (uri : string) : string :=
  Trello.BASE_URI ++ uri ++ "?key=" ++ Trello.key self ++ "&token=" ++ Trello.token self.

(** The call each operation hands to the transport, read off its body. *)
Definition call_of (self : Trello.t) (op : operation) : http_call :=
  match op with
  | ListBoards =>
      HttpCall GET (url_of self "/1/members/me/boards") Trello.HEADERS None
  | ListColumns b =>
      HttpCall GET (url_of self ("/1/boards/" ++ b ++ "/lists")) Trello.HEADERS None
  | ListLabels b =>
      HttpCall GET (url_of self ("/1/boards/" ++ b ++ "/labels")) Trello.HEADERS None
  | AddCard l n d ls =>
      HttpCall POST (url_of self "/1/cards") Trello.HEADERS
        (Some [("idList", l); ("name", n); ("desc", d);
               ("idLabels", join "," (match ls with None => [] | Some x => x end))])
  | AddComment c t =>
      HttpCall POST (url_of self ("/1/cards/" ++ c ++ "/actions/comments")) Trello.HEADERS
        (Some [("id", c); ("text", t)])
  end.

(** What [request] makes of the transport's answer to the call [c]. *)
Definition answer (send : http_call -> http_result)
    (json_loads : string -> option json) (c : http_call) : M json :=
  match send c with
  | Failed msg => (Raise (RequestException msg), [c])
  | Responded r =>
      if (200 =? status_code r)%Z then
        match json_loads (text r) with
        | Some v => (Return v, [c])
        | None => (Raise JSONDecodeError, [c])
        end
      else
        (Raise (ApiRequestException
                  ("Trello API returned status code " ++ str_of_int (status_code r)
                   ++ ". response body: " ++ text r)), [c])
  end.

(** The computation ended on a [CliException]. *)
Definition usage_error {A} (m : M A) : bool :=
  match fst m with
  | Raise (CliException _) => true
  | _ => false
  end.

(** The five actions, in the order in which [action] tests their flags. *)
Inductive action_kind : Type := Boards | Columns | Labels | Card | Comment.

(** The branch of the [if]/[elif] chain of [action] that is taken. *)
Definition selected (a : Cli.args) : option action_kind :=
  if Cli.list_boards a then Some Boards
  else if Cli.list_columns a then Some Columns
  else if Cli.list_labels a then Some Labels
  else if Cli.add_card a then Some Card
  else if Cli.add_comment a then Some Comment
  else None.

(** The valued options that some action requires, with the option string
    of their [add_argument] call. *)
Inductive field : Type := BoardId | ListId | CardId | Name | Description | CommentText.

Definition flag (f : field) : string :=
  match f with
  | BoardId => "--board-id"
  | ListId => "--list-id"
  | CardId => "--card-id"
  | Name => "--name"
  | Description => "--description"
  | CommentText => "--comment"
  end.

Definition value (a : Cli.args) (f : field) : option string :=
  match f with
  | BoardId => Cli.board_id a
  | ListId => Cli.list_id a
  | CardId => Cli.card_id a
  | Name => Cli.name a
  | Description => Cli.description a
  | CommentText => Cli.comment a
  end.

(** The fields tested by the branch of each action. *)
Definition required (k : action_kind) : list field :=
  match k with
  | Boards => []
  | Columns => [BoardId]
  | Labels => [BoardId]
  | Card => [ListId; Name; Description]
  | Comment => [CardId; CommentText]
  end.

Definition missing (a : Cli.args) (f : field) : bool := negb (truthy (value a f)).

Definition complete (a : Cli.args) (k : action_kind) : bool :=
  forallb (fun f => truthy (value a f)) (required k).

(** The message raised by the branch of each action on a missing field. *)
Definition usage_message (k : action_kind) : option string :=
  match k with
  | Boards => None
  | Columns => Some Cli.COLUMNS_MESSAGE
  | Labels => Some Cli.LABELS_MESSAGE
  | Card => Some Cli.CARD_MESSAGE
  | Comment => Some Cli.COMMENT_MESSAGE
  end.

(** The operation that the branch of each action calls. *)
Definition operation_of (a : Cli.args) (k : action_kind) : operation :=
  match k with
  | Boards => ListBoards
  | Columns => ListColumns (Cli.held (Cli.board_id a))
  | Labels => ListLabels (Cli.held (Cli.board_id a))
  | Card => AddCard (Cli.held (Cli.list_id a)) (Cli.held (Cli.name a))
                    (Cli.held (Cli.description a)) (Some (Cli.label_ids a))
  | Comment => AddComment (Cli.held (Cli.card_id a)) (Cli.held (Cli.comment a))
  end.

(** What the branch of each action makes of the value of its operation. *)
Definition render (k : action_kind) (v : json) : M string :=
  match k with
  | Boards | Columns => items <- lift (iterate v) ;; for_each items "" Cli.id_name_line
  | Labels => items <- lift (iterate v) ;; for_each items "" Cli.id_name_color_line
  | Card | Comment => Cli.added_line v ""
  end.

(** A record of a listing: [id], [name] and, for a label, [color]. *)
Record entry : Type := Entry { entry_id : string; entry_name : string; entry_color : string }.

(** [v] is a dict holding the strings of [e] under the keys that the
    listing [k] reads. *)
Definition holds (k : action_kind) (v : json) (e : entry) : Prop :=
  subscript v "id" = Return (JStr (entry_id e))
  /\ subscript v "name" = Return (JStr (entry_name e))
  /\ (k = Labels -> subscript v "color" = Return (JStr (entry_color e))).

(** The output line of a record. *)
Definition line (k : action_kind) (e : entry) : string :=
  match k with
  | Labels => entry_id e ++ " " ++ entry_name e ++ " " ++ entry_color e ++ Cli.LF
  | _ => entry_id e ++ " " ++ entry_name e ++ Cli.LF
  end.

(** The output of a listing: the lines of its records, in order. *)
Definition output_of (k : action_kind) (entries : list entry) : string :=
  fold_right (fun e rest => line k e ++ rest) "" entries.

(** The flag of the action [k] is set. *)
Definition chosen (a : Cli.args) (k : action_kind) : bool :=
  match k with
  | Boards => Cli.list_boards a
  | Columns => Cli.list_columns a
  | Labels => Cli.list_labels a
  | Card => Cli.add_card a
  | Comment => Cli.add_comment a
  end.

(** The loop body of each listing. *)
Definition body_of (k : action_kind) : json -> string -> M string :=
  match k with
  | Labels => Cli.id_name_color_line
  | _ => Cli.id_name_line
  end.


Definition is_listing (k : action_kind) : bool :=
  match k with
  | Boards | Columns | Labels => true
  | Card | Comment => false
  end.

(** The action flags of a command line, and how many of them are set. *)
Definition action_flags (cl : Cli.command_line) : list bool :=
  [Cli.opt_list_boards cl; Cli.opt_list_columns cl; Cli.opt_list_labels cl;
   Cli.opt_add_card cl; Cli.opt_add_comment cl].

Definition flags_set (cl : Cli.command_line) : nat :=
  count_occ bool_dec (action_flags cl) true.

(** The command line that keeps, of the action flags of [cl], the first
    one set in the order of the tests of [action]. *)
Definition first_flag_only (cl : Cli.command_line) : Cli.command_line :=
  let b := Cli.opt_list_boards cl in
  let c := Cli.opt_list_columns cl in
  let l := Cli.opt_list_labels cl in
  let k := Cli.opt_add_card cl in
  {| Cli.opt_key := Cli.opt_key cl;
     Cli.opt_token := Cli.opt_token cl;
     Cli.opt_list_boards := b;
     Cli.opt_list_columns := negb b && c;
     Cli.opt_add_card := negb b && negb c && negb l && k;
     Cli.opt_add_comment := negb b && negb c && negb l && negb k && Cli.opt_add_comment cl;
     Cli.opt_list_labels := negb b && negb c && l;
     Cli.opt_board_id := Cli.opt_board_id cl;
     Cli.opt_list_id := Cli.opt_list_id cl;
     Cli.opt_card_id := Cli.opt_card_id cl;
     Cli.opt_name := Cli.opt_name cl;
     Cli.opt_description := Cli.opt_description cl;
     Cli.opt_comment := Cli.opt_comment cl;
     Cli.opt_label_ids := Cli.opt_label_ids cl |}.

(** [s] with every underscore turned into a hyphen. *)
Fixpoint hyphenate (s : string) : string :=
  match s with
  | EmptyString => EmptyString
  | String c t => String (if Ascii.eqb c "_" then "-"%char else c) (hyphenate t)
  end.

(** ** Sample surroundings for the examples *)

Module Fixture.

Definition DQ : string := String "034"%char EmptyString.
Definition quoted (s : string) : string := DQ ++ s ++ DQ.

(** [[{"id":"b1","name":"Board1"}]] *)
Definition boards_text : string :=
  "[{" ++ quoted "id" ++ ":" ++ quoted "b1" ++ "," ++
          quoted "name" ++ ":" ++ quoted "Board1" ++ "}]".
Definition boards_value : json :=
  JArr [JObj [("id", JStr "b1"); ("name", JStr "Board1")]].

(** [[{"id":"l1","name":"Bugs","color":"red"}]] *)
Definition labels_text : string :=
  "[{" ++ quoted "id" ++ ":" ++ quoted "l1" ++ "," ++
          quoted "name" ++ ":" ++ quoted "Bugs" ++ "," ++
          quoted "color" ++ ":" ++ quoted "red" ++ "}]".
Definition labels_value : json :=
  JArr [JObj [("id", JStr "l1"); ("name", JStr "Bugs"); ("color", JStr "red")]].

(** [{"id":"c1"}] *)
Definition card_text : string := "{" ++ quoted "id" ++ ":" ++ quoted "c1" ++ "}".
Definition card_value : json := JObj [("id", JStr "c1")].

(** A decoder that knows the texts above. *)
Definition decode (s : string) : option json :=
  if s =? boards_text then Some boards_value
  else if s =? labels_text then Some labels_value
  else if s =? card_text then Some card_value
  else None.

(** A transport that answers every call with [r]. *)
Definition server (r : response) : http_call -> http_result :=
  fun _ => Responded r.

(** [401] with body ["unauthorized"] (quotes included). *)
Definition unauthorized : response := Response 401 (quoted "unauthorized").

Definition self : Trello.t := Trello.init "K" "T".

Definition env : Cli.environ := Cli.Environ (Some "K") (Some "T").
Definition no_env : Cli.environ := Cli.Environ None None.

(** A command line without any option, and some with options. *)
Definition bare : Cli.command_line :=
  Cli.CommandLine None None false false false false false
                  None None None None None None None.

Definition boards_and_columns : Cli.command_line :=
  Cli.CommandLine None None true true false false false
                  None None None None None None None.

(** [--add-card --list-id L1 --name Name --description Desc --label_ids a,b] *)
Definition card_with_labels : Cli.command_line :=
  Cli.CommandLine None None false false true false false
                  None (Some "L1") None (Some "Name") (Some "Desc") None (Some "a,b").

(** [--add-card --list-id L1 --name Name --description Desc] *)
Definition card_without_labels : Cli.command_line :=
  Cli.CommandLine None None false false true false false
                  None (Some "L1") None (Some "Name") (Some "Desc") None None.

(** The dict [args] of [--add-card --name Name --description Desc]. *)
Definition card_without_list : Cli.args :=
  Cli.Args "K" "T" false false false true false
           None None None (Some "Name") (Some "Desc") None [""].

(** The dict [args] of [--list-labels --board-id B1]. *)
Definition labels_of_board : Cli.args :=
  Cli.Args "K" "T" false false true false false
           (Some "B1") None None None None None [""].

(** The dict [args] of [--add-card --list-id L1 --name Name --description
    Desc --label_ids "a , b"]. *)
Definition card_in_list : Cli.args :=
  Cli.Args "K" "T" false false false true false
           None (Some "L1") None (Some "Name") (Some "Desc") None ["a"; "b"].

End Fixture.

(** ** def main *)

(** What the process leaves behind: the text written on each stream and
    the exit status. *)
Record process : Type := Process {
  stdout : string;
  stderr : string;
  exit_status : Z
}.

Section Main.

Variable send : http_call -> http_result.
Variable json_loads : string -> option json.

(** [traceback.format_exc()] in the handler of the exception [e]. *)
Variable format_exc : exn -> string.

(** [def main()].  [print(out)] writes [out] and a newline on the standard
    output, and the process ends with status 0.  [exit(x)] with an [x]
    that is neither an int nor [None] writes [str(x)] and a newline on the
    standard error and ends the process with status 1; [str] of a
    [CliException] is its message. *)
Definition main (env : Cli.environ) (cl : Cli.command_line)
    : process * list http_call :=
  match Cli.main_try send json_loads env cl with
  | (Return out, calls) => (Process (out ++ Cli.LF) "" 0, calls)
  | (Raise (CliException msg), calls) => (Process "" (msg ++ Cli.LF) 1, calls)
  | (Raise e, calls) => (Process "" (format_exc e ++ Cli.LF) 1, calls)
  end.

End Main.

(** ** tests/fixtures.py and tests/trello_cli_test.py *)

Module Tests.

Definition FIXTURE_BOARD_ID : string := "63bf64bde649ea019b59ac9d".
Definition FIXTURE_LIST_IDS : list string :=
  ["63bf668dfa06cf0066442182";
   "63bf668eeea146001ad17e56";
   "63bf668f97cfe800db5d74b2"].
Definition FIXTURE_LABEL_IDS : list string :=
  ["63bf64bdbfa825468a035190";
   "63bf64bdbfa825468a035191";
   "63bf64bdbfa825468a035195";
   "63bf64bdbfa825468a035198";
   "63bf64bdbfa825468a03519b";
   "63bf64bdbfa825468a03519d"].
Definition FIXTURE_COMMENT_ID : string := "63bf9a20e0e2720065fad56e".

(** [def getMockArgs()]: a dict with the two keys ["key"] and ["token"],
    each holding [os.environ.get(...)]. *)
Definition getMockArgs (env : Cli.environ) : list (string * option string) :=
  [("key", Cli.TRELLO_API_KEY env);
   ("token", Cli.TRELLO_API_TOKEN env)].

(** [args[k]] *)
Fixpoint item (args : list (string * option string)) (k : string)
    : outcome (option string) :=
  match args with
  | [] => Raise (KeyError k)
  | (k', v) :: rest => if String.eqb k' k then Return v else item rest k
  end.

(** [trello = Trello(args["key"], args["secret"], args["token"])], the
    statement that follows [args = fixtures.getMockArgs()] in each of the
    five tests.  The three arguments are evaluated from left to right;
    the call then binds them to [__init__(self, key, token)], which takes
    two and so refuses three. *)
Definition make_client (env : Cli.environ) : M Trello.t :=
  let args := getMockArgs env in
  _ <- lift (item args "key") ;;
  _ <- lift (item args "secret") ;;
  _ <- lift (item args "token") ;;
  raise TypeError.

Section Transport.

Variable send : http_call -> http_result.
Variable json_loads : string -> option json.

(** [def test_add_card(self)] *)
Definition test_add_card (env : Cli.environ) : M json :=
  trello <- make_client env ;;
  card <- Trello.addCard send json_loads trello
            (hd "" FIXTURE_LIST_IDS)
            "test card"
            "test description"
            (Some FIXTURE_LABEL_IDS) ;;
  ret card.

(** [def test_add_comment(self)] *)
Definition test_add_comment (env : Cli.environ) : M json :=
  trello <- make_client env ;;
  comment <- Trello.addComment send json_loads trello
               FIXTURE_COMMENT_ID
               "test comment" ;;
  ret comment.

End Transport.

End Tests.

(** ** More notions for the statements *)

(** The branch of [k] is taken with its fields present, the transport
    answers its call with [r], of status 200, and the body decodes to [v]. *)
Definition answered (send : http_call -> http_result)
    (json_loads : string -> option json) (a : Cli.args) (k : action_kind)
    (r : response) (v : json) : Prop :=
  selected a = Some k
  /\ complete a k = true
  /\ send (call_of (Trello.init (Cli.key a) (Cli.token a)) (operation_of a k))
     = Responded r
  /\ status_code r = 200%Z
  /\ json_loads (text r) = Some v.

(** The exceptions of a record that cannot be printed. *)
Definition record_fault (e : exn) : Prop :=
  e = TypeError \/ e = KeyError "id" \/ e = KeyError "name" \/ e = KeyError "color".

(** [s] holds no [\s] character. *)
Definition spaceless (s : string) : Prop :=
  forall c, In c (list_ascii_of_string s) -> is_space c = false.

(** [s] is a non-empty run of [\s] characters. *)
Definition blank (s : string) : Prop :=
  s <> "" /\ forall c, In c (list_ascii_of_string s) -> is_space c = true.

(** Two dicts [args] that agree on what the branch of [k] reads. *)
Definition agree_on (k : action_kind) (a b : Cli.args) : Prop :=
  Cli.key a = Cli.key b
  /\ Cli.token a = Cli.token b
  /\ (forall f, In f (required k) -> value a f = value b f)
  /\ (k = Card -> Cli.label_ids a = Cli.label_ids b).

(** More sample surroundings. *)
Module Sample.

(** A decoder that makes [v] of every text. *)
Definition decode_as (v : json) : string -> option json := fun _ => Some v.

(** A decoder that refuses every text. *)
Definition refuse : string -> option json := fun _ => None.

(** A transport that raises on every call. *)
Definition unreachable : http_call -> http_result := fun _ => Failed "no route".

(** A traceback text. *)
Definition trace (e : exn) : string :=
  match e with
  | ApiRequestException msg => "Traceback: ApiRequestException: " ++ msg
  | _ => "Traceback"
  end.

Definition ok : response := Response 200 "body".

(** A label with its color, and one whose color is [null]. *)
Definition red_label : json :=
  JObj [("id", JStr "l1"); ("name", JStr "Bugs"); ("color", JStr "red")].
Definition plain_label : json :=
  JObj [("id", JStr "l2"); ("name", JStr "Later"); ("color", JNull)].

(** The dict [args] of [--list-boards]. *)
Definition boards : Cli.args :=
  Cli.Args "K" "T" true false false false false
           None None None None None None [""].

(** The same with options that [--list-boards] does not read. *)
Definition boards_with_more : Cli.args :=
  Cli.Args "K" "T" true true false true false
           (Some "B1") None (Some "C1") (Some "Name") None None ["a"; "b"].

(** [--list-boards] *)
Definition list_boards : Cli.command_line :=
  Cli.CommandLine None None true false false false false
                  None None None None None None None.

(** [--key K2 --token T2 --list-boards] *)
Definition list_boards_with_credentials : Cli.command_line :=
  Cli.CommandLine (Some "K2") (Some "T2") true false false false false
                  None None None None None None None.


End Sample.

(** ** Lemmas on the monad and on [request] *)

(** Case analysis along the body of [request] once the verb is known. *)
Ltac request_cases send json_loads :=
  unfold Trello.perform;
  destruct (send _) as [r | msg]; [|reflexivity];
  cbv beta iota delta [bind ret raise Trello.loads];
  destruct (200 =? status_code r)%Z; [|reflexivity];
  destruct (json_loads (text r)); reflexivity.

Section RequestFacts.

Variable send : http_call -> http_result.
Variable json_loads : string -> option json.

Lemma bind_ret_r {A} (m : M A) : (x <- m ;; ret x) = m.
Proof.
  destruct m as [[a | e] calls]; simpl; [rewrite app_nil_r|]; reflexivity.
Qed.

Lemma request_GET (self : Trello.t) (uri : string) (q : option (list (string * string))) :
  Trello.request send json_loads self "GET" uri q
  = answer send json_loads (HttpCall GET (url_of self uri) Trello.HEADERS q).
Proof.
  unfold Trello.request, answer, url_of.
  rewrite String.eqb_refl.
  request_cases send json_loads.
Qed.

Lemma request_POST (self : Trello.t) (uri : string) (q : option (list (string * string))) :
  Trello.request send json_loads self "POST" uri q
  = answer send json_loads (HttpCall POST (url_of self uri) Trello.HEADERS q).
Proof.
  unfold Trello.request, answer, url_of.
  change ("GET" =? "POST") with false; rewrite String.eqb_refl.
  request_cases send json_loads.
Qed.

Lemma run_operation_answer (self : Trello.t) (op : operation) :
  run_operation send json_loads self op = answer send json_loads (call_of self op).
Proof.
  destruct op; simpl;
    unfold Trello.listBoards, Trello.listColumns, Trello.listLabels,
           Trello.addCard, Trello.addComment;
    rewrite bind_ret_r; first [apply request_GET | apply request_POST].
Qed.

Lemma answer_calls (c : http_call) : snd (answer send json_loads c) = [c].
Proof.
  unfold answer. destruct (send c) as [r | msg]; [|reflexivity].
  destruct (200 =? status_code r)%Z; [|reflexivity].
  destruct (json_loads (text r)); reflexivity.
Qed.

End RequestFacts.

(** ** Lemmas on [action] *)

Section ActionFacts.

Variable send : http_call -> http_result.
Variable json_loads : string -> option json.

Lemma action_unselected (a : Cli.args) :
  selected a = None ->
  Cli.action send json_loads a = raise (CliException Cli.NO_ACTION_MESSAGE).
Proof.
  unfold selected, Cli.action.
  destruct (Cli.list_boards a), (Cli.list_columns a), (Cli.list_labels a),
           (Cli.add_card a), (Cli.add_comment a); intros H; try discriminate H.
  reflexivity.
Qed.

Lemma action_incomplete (a : Cli.args) (k : action_kind) :
  selected a = Some k -> complete a k = false ->
  exists msg, usage_message k = Some msg
              /\ Cli.action send json_loads a = raise (CliException msg).
Proof.
  unfold selected, Cli.action, complete.
  destruct (Cli.list_boards a); [intros H; inversion H; subst k; discriminate|].
  destruct (Cli.list_columns a).
  { intros H; inversion H; subst k; cbn [required forallb value usage_message].
    destruct (truthy (Cli.board_id a)); [discriminate|]. eexists; split; reflexivity. }
  destruct (Cli.list_labels a).
  { intros H; inversion H; subst k; cbn [required forallb value usage_message].
    destruct (truthy (Cli.board_id a)); [discriminate|]. eexists; split; reflexivity. }
  destruct (Cli.add_card a).
  { intros H; inversion H; subst k; cbn [required forallb value usage_message].
    destruct (truthy (Cli.list_id a)), (truthy (Cli.name a)), (truthy (Cli.description a));
      try discriminate; eexists; split; reflexivity. }
  destruct (Cli.add_comment a); [|discriminate].
  intros H; inversion H; subst k; cbn [required forallb value usage_message].
  destruct (truthy (Cli.card_id a)), (truthy (Cli.comment a));
    try discriminate; eexists; split; reflexivity.
Qed.

Lemma action_complete (a : Cli.args) (k : action_kind) :
  selected a = Some k -> complete a k = true ->
  Cli.action send json_loads a
  = (v <- run_operation send json_loads (Trello.init (Cli.key a) (Cli.token a))
                        (operation_of a k) ;;
     render k v).
Proof.
  unfold selected, Cli.action, complete.
  destruct (Cli.list_boards a); [intros H; inversion H; subst k; reflexivity|].
  destruct (Cli.list_columns a).
  { intros H; inversion H; subst k; cbn [required forallb value].
    destruct (truthy (Cli.board_id a)); [reflexivity|discriminate]. }
  destruct (Cli.list_labels a).
  { intros H; inversion H; subst k; cbn [required forallb value].
    destruct (truthy (Cli.board_id a)); [reflexivity|discriminate]. }
  destruct (Cli.add_card a).
  { intros H; inversion H; subst k; cbn [required forallb value].
    destruct (truthy (Cli.list_id a)), (truthy (Cli.name a)), (truthy (Cli.description a));
      try discriminate; reflexivity. }
  destruct (Cli.add_comment a); [|discriminate].
  intros H; inversion H; subst k; cbn [required forallb value].
  destruct (truthy (Cli.card_id a)), (truthy (Cli.comment a));
    try discriminate; reflexivity.
Qed.

End ActionFacts.

(** ** Lemmas on strings *)

Lemma append_assoc (a b c : string) : (a ++ b) ++ c = a ++ (b ++ c).
Proof.
  induction a as [|x a IH]; simpl; [reflexivity | now rewrite IH].
Qed.

Lemma append_nil_r (a : string) : a ++ "" = a.
Proof.
  induction a as [|x a IH]; simpl; [reflexivity | now rewrite IH].
Qed.

Lemma contains_middle (a b c : string) : contains b (a ++ b ++ c).
Proof. exists a, c. reflexivity. Qed.

Lemma contains_end (a b : string) : contains b (a ++ b).
Proof. exists a, "". now rewrite append_nil_r. Qed.

Lemma contains_append_l (s a b : string) : contains s b -> contains s (a ++ b).
Proof.
  intros [p [q ->]]. exists (a ++ p), q. now rewrite append_assoc.
Qed.

Lemma starts_with_append (sub s : string) :
  starts_with sub s = true -> exists after, s = sub ++ after.
Proof.
  revert s. induction sub as [|a sub IH]; intros s H.
  - exists s. reflexivity.
  - destruct s as [|b s]; [discriminate H|]. simpl in H.
    apply andb_true_iff in H. destruct H as [Hab Hs].
    apply Ascii.eqb_eq in Hab. subst b.
    destruct (IH s Hs) as [after ->]. exists after. reflexivity.
Qed.

Lemma occurs_contains (sub s : string) : occurs sub s = true -> contains sub s.
Proof.
  induction s as [|c s IH]; intros H.
  - simpl in H. rewrite orb_false_r in H.
    destruct (starts_with_append _ _ H) as [after Ha]. exists "", after. exact Ha.
  - cbn [occurs] in H. apply orb_true_iff in H. destruct H as [H | H].
    + destruct (starts_with_append _ _ H) as [after Ha]. exists "", after. exact Ha.
    + destruct (IH H) as (before & after & ->).
      exists (String c before), after. reflexivity.
Qed.

(** ** The response handling of [request] *)

(** C1.  Whatever the operation and the response to its call: a status
    other than 200 raises [ApiRequestException] with a message in which
    both the status code and the text of the body occur; a status 200
    returns the value that [json.loads] makes of the body, as it is. *)
Theorem operation_response_handling
    (send : http_call -> http_result) (json_loads : string -> option json)
    (self : Trello.t) (op : operation) (r : response) :
  send (call_of self op) = Responded r ->
  (status_code r <> 200%Z ->
     exists msg,
       run_operation send json_loads self op
       = (Raise (ApiRequestException msg), [call_of self op])
       /\ contains (str_of_int (status_code r)) msg
       /\ contains (text r) msg)
  /\ (status_code r = 200%Z ->
      forall v, json_loads (text r) = Some v ->
        run_operation send json_loads self op = (Return v, [call_of self op])).
Proof.
  intros Hsend. rewrite run_operation_answer. unfold answer. rewrite Hsend.
  split.
  - intros Hne.
    destruct (Z.eqb_spec 200 (status_code r)) as [Heq | _]; [congruence|].
    eexists; split; [reflexivity|]. split.
    + apply contains_middle.
    + apply contains_append_l, contains_append_l, contains_end.
  - intros Heq v Hv. rewrite Heq, Hv. reflexivity.
Qed.

Lemma operation_response_handling_witness :
  (exists msg,
     run_operation (Fixture.server Fixture.unauthorized) Fixture.decode
                   Fixture.self (AddComment "c9" "hi")
     = (Raise (ApiRequestException msg), [call_of Fixture.self (AddComment "c9" "hi")])
     /\ contains "401" msg
     /\ contains (Fixture.quoted "unauthorized") msg)
  /\ run_operation (Fixture.server (Response 200 Fixture.boards_text)) Fixture.decode
                   Fixture.self ListBoards
     = (Return Fixture.boards_value, [call_of Fixture.self ListBoards]).
Proof.
  split.
  - apply (proj1 (operation_response_handling
                    (Fixture.server Fixture.unauthorized) Fixture.decode
                    Fixture.self (AddComment "c9" "hi") eq_refl)).
    discriminate.
  - apply (proj2 (operation_response_handling
                    (Fixture.server (Response 200 Fixture.boards_text)) Fixture.decode
                    Fixture.self ListBoards eq_refl)); reflexivity.
Defined.

(** C9.  [request] assigns its response only for the methods ["GET"] and
    ["POST"]: with any other method it issues no call and faults on the
    unassigned local [r]; with one of the two it issues one call and never
    faults that way; and each of the five operations calls it with one of
    the two. *)
Theorem request_unassigned_response
    (send : http_call -> http_result) (json_loads : string -> option json)
    (self : Trello.t) :
  (forall method uri q,
      method <> "GET" -> method <> "POST" ->
      Trello.request send json_loads self method uri q
      = (Raise (UnboundLocalError "r"), []))
  /\ (forall method uri q,
      method = "GET" \/ method = "POST" ->
      fst (Trello.request send json_loads self method uri q)
        <> Raise (UnboundLocalError "r")
      /\ exists c, snd (Trello.request send json_loads self method uri q) = [c])
  /\ (forall op,
      exists method uri q,
        (method = "GET" \/ method = "POST")
        /\ run_operation send json_loads self op
           = Trello.request send json_loads self method uri q).
Proof.
  split; [|split].
  - intros method uri q Hget Hpost. unfold Trello.request.
    assert (("GET" =? method) = false) as -> by (apply String.eqb_neq; congruence).
    assert (("POST" =? method) = false) as -> by (apply String.eqb_neq; congruence).
    reflexivity.
  - intros method uri q [-> | ->];
      [rewrite request_GET | rewrite request_POST];
      (split; [|eexists; apply answer_calls]);
      unfold answer; destruct (send _) as [r | msg]; try discriminate;
      destruct (200 =? status_code r)%Z; try discriminate;
      destruct (json_loads (text r)); discriminate.
  - intros op.
    destruct op; simpl;
      unfold Trello.listBoards, Trello.listColumns, Trello.listLabels,
             Trello.addCard, Trello.addComment;
      rewrite bind_ret_r; do 3 eexists; (split; [|reflexivity]); auto.
Qed.

Lemma request_unassigned_response_witness :
  Trello.request (Fixture.server Fixture.unauthorized) Fixture.decode
                 Fixture.self "PUT" "/1/cards" None
  = (Raise (UnboundLocalError "r"), [])
  /\ fst (Trello.request (Fixture.server Fixture.unauthorized) Fixture.decode
                         Fixture.self "GET" "/1/cards" None)
     <> Raise (UnboundLocalError "r").
Proof.
  split.
  - apply (proj1 (request_unassigned_response
                    (Fixture.server Fixture.unauthorized) Fixture.decode Fixture.self));
      discriminate.
  - apply (proj1 (proj2 (request_unassigned_response
                    (Fixture.server Fixture.unauthorized) Fixture.decode Fixture.self))).
    left; reflexivity.
Defined.

(** ** Credentials and the choice of the action *)

Lemma getConfig_rejects (env : Cli.environ) (cl : Cli.command_line) :
  truthy (Cli.ns_key (Cli.parse_args env cl)) = false
  \/ truthy (Cli.ns_token (Cli.parse_args env cl)) = false ->
  Cli.getConfig env cl = Raise (CliException Cli.CREDENTIALS_MESSAGE).
Proof.
  unfold Cli.getConfig. intros [H | H]; rewrite H; simpl; [reflexivity|].
  now rewrite orb_true_r.
Qed.

Lemma getConfig_accepts (env : Cli.environ) (cl : Cli.command_line) :
  truthy (Cli.ns_key (Cli.parse_args env cl)) = true ->
  truthy (Cli.ns_token (Cli.parse_args env cl)) = true ->
  exists a,
    Cli.getConfig env cl = Return a
    /\ Cli.list_boards a = Cli.opt_list_boards cl
    /\ Cli.list_columns a = Cli.opt_list_columns cl
    /\ Cli.list_labels a = Cli.opt_list_labels cl
    /\ Cli.add_card a = Cli.opt_add_card cl
    /\ Cli.add_comment a = Cli.opt_add_comment cl.
Proof.
  unfold Cli.getConfig. intros Hk Ht. rewrite Hk, Ht. simpl orb. cbv iota.
  destruct (Cli.ns_key (Cli.parse_args env cl)) as [k|]; [|discriminate Hk].
  destruct (Cli.ns_token (Cli.parse_args env cl)) as [t|]; [|discriminate Ht].
  eexists; split; [reflexivity|]. simpl. repeat split; reflexivity.
Qed.

Lemma main_try_rejects (send : http_call -> http_result)
    (json_loads : string -> option json) (env : Cli.environ)
    (cl : Cli.command_line) (e : exn) :
  Cli.getConfig env cl = Raise e ->
  Cli.main_try send json_loads env cl = (Raise e, []).
Proof.
  intros H. unfold Cli.main_try. rewrite H. reflexivity.
Qed.

Lemma main_try_accepts (send : http_call -> http_result)
    (json_loads : string -> option json) (env : Cli.environ)
    (cl : Cli.command_line) (a : Cli.args) :
  Cli.getConfig env cl = Return a ->
  Cli.main_try send json_loads env cl = Cli.action send json_loads a.
Proof.
  intros H. unfold Cli.main_try. rewrite H. unfold lift, bind at 1.
  rewrite bind_ret_r. destruct (Cli.action send json_loads a). reflexivity.
Qed.

Lemma no_flag_set (cl : Cli.command_line) :
  flags_set cl = 0 ->
  Cli.opt_list_boards cl = false /\ Cli.opt_list_columns cl = false
  /\ Cli.opt_list_labels cl = false /\ Cli.opt_add_card cl = false
  /\ Cli.opt_add_comment cl = false.
Proof.
  unfold flags_set, action_flags.
  destruct (Cli.opt_list_boards cl), (Cli.opt_list_columns cl),
           (Cli.opt_list_labels cl), (Cli.opt_add_card cl),
           (Cli.opt_add_comment cl); simpl; intros H; try discriminate H.
  repeat split; reflexivity.
Qed.

Lemma main_try_no_flag (send : http_call -> http_result)
    (json_loads : string -> option json) (env : Cli.environ)
    (cl : Cli.command_line) :
  truthy (Cli.ns_key (Cli.parse_args env cl)) = true ->
  truthy (Cli.ns_token (Cli.parse_args env cl)) = true ->
  flags_set cl = 0 ->
  Cli.main_try send json_loads env cl
  = (Raise (CliException Cli.NO_ACTION_MESSAGE), []).
Proof.
  intros Hk Ht Hnone.
  destruct (getConfig_accepts env cl Hk Ht) as (a & Ha & Hb & Hc & Hl & Hd & Hm).
  destruct (no_flag_set cl Hnone) as (Eb & Ec & El & Ed & Em).
  rewrite (main_try_accepts send json_loads env cl Ha).
  apply action_unselected. unfold selected.
  now rewrite Hb, Hc, Hl, Hd, Hm, Eb, Ec, El, Ed, Em.
Qed.

(** C7.  When neither the option nor the environment gives the key, or
    neither gives the token, [getConfig] raises a [CliException] whose
    message names both [--key] and [--token], and the run issues no HTTP
    call. *)
Theorem absent_credentials_rejected
    (send : http_call -> http_result) (json_loads : string -> option json)
    (env : Cli.environ) (cl : Cli.command_line) :
  (Cli.opt_key cl = None /\ Cli.TRELLO_API_KEY env = None)
  \/ (Cli.opt_token cl = None /\ Cli.TRELLO_API_TOKEN env = None) ->
  exists msg,
    Cli.getConfig env cl = Raise (CliException msg)
    /\ Cli.main_try send json_loads env cl = (Raise (CliException msg), [])
    /\ contains "--key" msg
    /\ contains "--token" msg.
Proof.
  intros H.
  assert (Cli.getConfig env cl = Raise (CliException Cli.CREDENTIALS_MESSAGE)) as Hc.
  { apply getConfig_rejects. unfold Cli.parse_args; simpl.
    destruct H as [[-> ->] | [-> ->]]; [left | right]; reflexivity. }
  exists Cli.CREDENTIALS_MESSAGE. split; [exact Hc|].
  split; [now apply main_try_rejects|]. split.
  - apply occurs_contains; reflexivity.
  - apply occurs_contains; reflexivity.
Qed.

(** C10.  A key or a token that resolves to the empty string is rejected
    by [getConfig] with the very exception raised when a credential is
    absent. *)
Theorem empty_credential_rejected
    (env env' : Cli.environ) (cl cl' : Cli.command_line) :
  Cli.ns_key (Cli.parse_args env cl) = Some ""
  \/ Cli.ns_token (Cli.parse_args env cl) = Some "" ->
  Cli.ns_key (Cli.parse_args env' cl') = None
  \/ Cli.ns_token (Cli.parse_args env' cl') = None ->
  Cli.getConfig env cl = Raise (CliException Cli.CREDENTIALS_MESSAGE)
  /\ Cli.getConfig env cl = Cli.getConfig env' cl'.
Proof.
  intros H H'.
  assert (Cli.getConfig env cl = Raise (CliException Cli.CREDENTIALS_MESSAGE)) as Hc.
  { apply getConfig_rejects. destruct H as [-> | ->]; [left | right]; reflexivity. }
  split; [exact Hc|]. rewrite Hc. symmetry.
  apply getConfig_rejects. destruct H' as [-> | ->]; [left | right]; reflexivity.
Qed.

(** C8.  With a key and a token that pass, and none of the five action
    flags set, the run raises a [CliException] whose message lists the five
    actions, and issues no HTTP call. *)
Theorem no_action_rejected
    (send : http_call -> http_result) (json_loads : string -> option json)
    (env : Cli.environ) (cl : Cli.command_line) :
  truthy (Cli.ns_key (Cli.parse_args env cl)) = true ->
  truthy (Cli.ns_token (Cli.parse_args env cl)) = true ->
  flags_set cl = 0 ->
  exists msg,
    Cli.main_try send json_loads env cl = (Raise (CliException msg), [])
    /\ contains "--list-boards" msg
    /\ contains "--list-columns" msg
    /\ contains "--list-labels" msg
    /\ contains "--add-card" msg
    /\ contains "--add-comment" msg.
Proof.
  intros Hk Ht Hnone.
  exists Cli.NO_ACTION_MESSAGE. split.
  - now apply main_try_no_flag.
  - repeat split; apply occurs_contains; reflexivity.
Qed.

Lemma absent_credentials_rejected_witness :
  exists msg,
    Cli.getConfig Fixture.no_env Fixture.bare = Raise (CliException msg)
    /\ Cli.main_try (Fixture.server Fixture.unauthorized) Fixture.decode
                    Fixture.no_env Fixture.bare
       = (Raise (CliException msg), [])
    /\ contains "--key" msg
    /\ contains "--token" msg.
Proof.
  exact (absent_credentials_rejected
           (Fixture.server Fixture.unauthorized) Fixture.decode
           Fixture.no_env Fixture.bare (or_introl (conj eq_refl eq_refl))).
Defined.

Lemma empty_credential_rejected_witness :
  Cli.getConfig (Cli.Environ (Some "") (Some "T")) Fixture.bare
  = Raise (CliException Cli.CREDENTIALS_MESSAGE)
  /\ Cli.getConfig (Cli.Environ (Some "") (Some "T")) Fixture.bare
     = Cli.getConfig Fixture.no_env Fixture.bare.
Proof.
  exact (empty_credential_rejected
           (Cli.Environ (Some "") (Some "T")) Fixture.no_env Fixture.bare Fixture.bare
           (or_introl eq_refl) (or_introl eq_refl)).
Defined.

Lemma no_action_rejected_witness :
  exists msg,
    Cli.main_try (Fixture.server Fixture.unauthorized) Fixture.decode
                 Fixture.env Fixture.bare
    = (Raise (CliException msg), [])
    /\ contains "--list-boards" msg
    /\ contains "--list-columns" msg
    /\ contains "--list-labels" msg
    /\ contains "--add-card" msg
    /\ contains "--add-comment" msg.
Proof.
  exact (no_action_rejected
           (Fixture.server Fixture.unauthorized) Fixture.decode
           Fixture.env Fixture.bare eq_refl eq_refl eq_refl).
Defined.

(** ** How many action flags an accepted command line has *)

Lemma main_try_first_flag_only
    (send : http_call -> http_result) (json_loads : string -> option json)
    (env : Cli.environ) (cl : Cli.command_line) :
  Cli.main_try send json_loads env cl
  = Cli.main_try send json_loads env (first_flag_only cl).
Proof.
  unfold Cli.main_try, Cli.getConfig, Cli.parse_args, first_flag_only.
  cbn [Cli.ns_key Cli.ns_token Cli.ns_list_boards Cli.ns_list_columns
       Cli.ns_list_labels Cli.ns_add_card Cli.ns_add_comment Cli.ns_board_id
       Cli.ns_list_id Cli.ns_card_id Cli.ns_name Cli.ns_description
       Cli.ns_comment Cli.ns_label_ids
       Cli.opt_key Cli.opt_token Cli.opt_list_boards Cli.opt_list_columns
       Cli.opt_list_labels Cli.opt_add_card Cli.opt_add_comment Cli.opt_board_id
       Cli.opt_list_id Cli.opt_card_id Cli.opt_name Cli.opt_description
       Cli.opt_comment Cli.opt_label_ids].
  destruct (negb _ || negb _); [reflexivity|].
  destruct (match Cli.opt_key cl with Some v => Some v | None => _ end);
    [|reflexivity].
  destruct (match Cli.opt_token cl with Some v => Some v | None => _ end);
    [|reflexivity].
  unfold lift, bind at 1 3. unfold Cli.action.
  cbn [Cli.key Cli.token Cli.list_boards Cli.list_columns Cli.list_labels
       Cli.add_card Cli.add_comment Cli.board_id Cli.list_id Cli.card_id
       Cli.name Cli.description Cli.comment Cli.label_ids].
  destruct (Cli.opt_list_boards cl), (Cli.opt_list_columns cl),
           (Cli.opt_list_labels cl), (Cli.opt_add_card cl),
           (Cli.opt_add_comment cl); reflexivity.
Qed.

Lemma flags_set_first_flag_only (cl : Cli.command_line) :
  flags_set (first_flag_only cl) <= 1.
Proof.
  unfold flags_set, action_flags, first_flag_only; simpl.
  destruct (Cli.opt_list_boards cl), (Cli.opt_list_columns cl),
           (Cli.opt_list_labels cl), (Cli.opt_add_card cl),
           (Cli.opt_add_comment cl); simpl; lia.
Qed.

(** C2, as stated, fails: a command line with both [--list-boards] and
    [--list-columns] is accepted and lists the boards. *)
Lemma two_action_flags_accepted :
  ~ (forall send json_loads env cl,
        usage_error (Cli.main_try send json_loads env cl) = false ->
        flags_set cl = 1).
Proof.
  intros H.
  specialize (H (Fixture.server (Response 200 Fixture.boards_text)) Fixture.decode
                Fixture.env Fixture.boards_and_columns eq_refl).
  discriminate H.
Qed.

(** C2, amended.  A command line accepted without a [CliException] has at
    least one of the five action flags set; with several set it is run as
    the command line that keeps only the first of them in the order of the
    tests of [action]: list-boards, list-columns, list-labels, add-card,
    add-comment. *)
Theorem accepted_has_an_action_flag
    (send : http_call -> http_result) (json_loads : string -> option json)
    (env : Cli.environ) (cl : Cli.command_line) :
  usage_error (Cli.main_try send json_loads env cl) = false ->
  1 <= flags_set cl
  /\ Cli.main_try send json_loads env cl
     = Cli.main_try send json_loads env (first_flag_only cl)
  /\ flags_set (first_flag_only cl) = 1.
Proof.
  intros Hok.
  assert (flags_set cl <> 0) as Hcl.
  { intros Hnone.
    destruct (truthy (Cli.ns_key (Cli.parse_args env cl))) eqn:Hk;
      [destruct (truthy (Cli.ns_token (Cli.parse_args env cl))) eqn:Ht|].
    - rewrite (main_try_no_flag send json_loads env cl Hk Ht Hnone) in Hok.
      discriminate Hok.
    - rewrite (main_try_rejects send json_loads env cl
                 (getConfig_rejects env cl (or_intror Ht))) in Hok.
      discriminate Hok.
    - rewrite (main_try_rejects send json_loads env cl
                 (getConfig_rejects env cl (or_introl Hk))) in Hok.
      discriminate Hok. }
  split; [lia|]. split; [apply main_try_first_flag_only|].
  pose proof (flags_set_first_flag_only cl) as Hle.
  assert (flags_set (first_flag_only cl) <> 0); [|lia].
  revert Hcl. unfold flags_set, action_flags, first_flag_only; simpl.
  destruct (Cli.opt_list_boards cl), (Cli.opt_list_columns cl),
           (Cli.opt_list_labels cl), (Cli.opt_add_card cl),
           (Cli.opt_add_comment cl); simpl; lia.
Qed.

Lemma accepted_has_an_action_flag_witness :
  1 <= flags_set Fixture.boards_and_columns
  /\ Cli.main_try (Fixture.server (Response 200 Fixture.boards_text)) Fixture.decode
                  Fixture.env Fixture.boards_and_columns
     = Cli.main_try (Fixture.server (Response 200 Fixture.boards_text)) Fixture.decode
                    Fixture.env (first_flag_only Fixture.boards_and_columns)
  /\ flags_set (first_flag_only Fixture.boards_and_columns) = 1.
Proof.
  exact (accepted_has_an_action_flag
           (Fixture.server (Response 200 Fixture.boards_text)) Fixture.decode
           Fixture.env Fixture.boards_and_columns eq_refl).
Defined.

(** ** The label ids *)

Lemma split_from_without_space (s piece : string) :
  (forall c, In c (list_ascii_of_string s) -> is_space c = false) ->
  split_from 0 piece s = [piece ++ s].
Proof.
  revert piece. induction s as [|c t IH]; intros piece Hs.
  - simpl. now rewrite append_nil_r.
  - assert (is_space c = false) as Hc by (apply Hs; left; reflexivity).
    cbn [split_from]. unfold match_separator. cbn [space_run]. rewrite Hc.
    cbn [drop]. rewrite IH.
    + now rewrite append_assoc.
    + intros c' Hin. apply Hs. right. exact Hin.
Qed.

Lemma label_ids_without_space (env : Cli.environ) (cl : Cli.command_line)
    (a : Cli.args) :
  Cli.getConfig env cl = Return a ->
  (forall c, In c (list_ascii_of_string (Cli.with_default (Cli.opt_label_ids cl) "")) ->
             is_space c = false) ->
  Cli.label_ids a = [Cli.with_default (Cli.opt_label_ids cl) ""].
Proof.
  unfold Cli.getConfig. intros Ha Hs.
  destruct (negb _ || negb _); [discriminate Ha|].
  destruct (Cli.ns_key _); [|discriminate Ha].
  destruct (Cli.ns_token _); [|discriminate Ha].
  injection Ha as <-. cbn [Cli.label_ids Cli.parse_args Cli.ns_label_ids].
  unfold re_split_spaced_comma. now rewrite split_from_without_space.
Qed.

(** The separator of [re.split] at work. *)
Example re_split_spaced : re_split_spaced_comma "a , b" = ["a"; "b"].
Proof. reflexivity. Qed.

Example re_split_runs :
  re_split_spaced_comma "a  ,   b ,c, d" = ["a"; "b ,c, d"].
Proof. reflexivity. Qed.

(** C3, on the code.  [--label_ids a,b] gives the one label id ["a,b"],
    not the two ids ["a"] and ["b"]: the pattern of the split asks for
    white space on both sides of the comma.  Without [--label_ids] the
    label ids are the one empty string, not the empty sequence. *)
Theorem label_ids_kept_whole :
  (exists a, Cli.getConfig Fixture.env Fixture.card_with_labels = Return a
             /\ Cli.label_ids a = ["a,b"])
  /\ (exists a, Cli.getConfig Fixture.env Fixture.card_without_labels = Return a
                /\ Cli.label_ids a = [""]).
Proof.
  split; eexists; split; reflexivity.
Qed.

(** ** Missing fields *)

Lemma incomplete_of_missing (a : Cli.args) (k : action_kind) :
  (exists f, In f (required k) /\ missing a f = true) -> complete a k = false.
Proof.
  intros (f & Hin & Hmiss). unfold complete.
  destruct (forallb _ _) eqn:Hall; [|reflexivity].
  rewrite forallb_forall in Hall. specialize (Hall f Hin).
  unfold missing in Hmiss. rewrite Hall in Hmiss. discriminate Hmiss.
Qed.

(** C4, as stated, fails: [--add-card --name Name --description Desc]
    lacks the list id only, and the message raised names [--name] and
    [--description] as well. *)
Lemma usage_message_names_present_fields :
  ~ (forall send json_loads a k,
        chosen a k = true ->
        (exists f, In f (required k) /\ missing a f = true) ->
        exists msg,
          Cli.action send json_loads a = (Raise (CliException msg), [])
          /\ forall f, In f (required k) ->
                       (contains (flag f) msg <-> missing a f = true)).
Proof.
  intros H.
  destruct (H (Fixture.server Fixture.unauthorized) Fixture.decode
              Fixture.card_without_list Card eq_refl
              (ex_intro _ ListId (conj (or_introl eq_refl) eq_refl)))
    as (msg & Hact & Hnames).
  vm_compute in Hact. injection Hact as <-.
  destruct (Hnames Name (or_intror (or_introl eq_refl))) as [Hn _].
  assert (missing Fixture.card_without_list Name = true) as Hm
      by (apply Hn, occurs_contains; reflexivity).
  discriminate Hm.
Qed.

(** C4, amended.  When the branch taken by [action] is that of the action
    [k] and one or more of the fields required by [k] is absent or empty,
    [action] raises a [CliException] and issues no HTTP call; the message
    is the one message of [k], and it names every field that [k] requires
    (the flags being read up to the separator, [-] or [_]). *)
Theorem incomplete_action_rejected
    (send : http_call -> http_result) (json_loads : string -> option json)
    (a : Cli.args) (k : action_kind) :
  selected a = Some k ->
  (exists f, In f (required k) /\ missing a f = true) ->
  exists msg,
    usage_message k = Some msg
    /\ Cli.action send json_loads a = (Raise (CliException msg), [])
    /\ forall f, In f (required k) -> contains (flag f) (hyphenate msg).
Proof.
  intros Hsel Hmiss.
  destruct (action_incomplete send json_loads a Hsel (incomplete_of_missing a k Hmiss))
    as (msg & Hmsg & Hact).
  exists msg. split; [exact Hmsg|]. split; [exact Hact|].
  intros f Hin. destruct k; simpl in Hmsg; try discriminate Hmsg;
    injection Hmsg as <-; simpl in Hin;
    repeat (destruct Hin as [<- | Hin]; [apply occurs_contains; reflexivity|]);
    contradiction.
Qed.

Lemma incomplete_action_rejected_witness :
  exists msg,
    usage_message Card = Some msg
    /\ Cli.action (Fixture.server Fixture.unauthorized) Fixture.decode
                  Fixture.card_without_list
       = (Raise (CliException msg), [])
    /\ forall f, In f (required Card) -> contains (flag f) (hyphenate msg).
Proof.
  exact (incomplete_action_rejected
           (Fixture.server Fixture.unauthorized) Fixture.decode
           Fixture.card_without_list eq_refl
           (ex_intro _ ListId (conj (or_introl eq_refl) eq_refl))).
Defined.

(** ** What an action sends and prints *)

Lemma bind_lift_calls {A B} (o : outcome A) (f : A -> M B) :
  (forall x, snd (f x) = []) -> snd (x <- lift o ;; f x) = [].
Proof.
  intros Hf. destruct o as [x | e]; simpl; [|reflexivity].
  specialize (Hf x). destruct (f x) as [r calls]. simpl in *. exact Hf.
Qed.

Lemma id_name_line_calls (x : json) (out : string) :
  snd (Cli.id_name_line x out) = [].
Proof.
  unfold Cli.id_name_line. repeat (apply bind_lift_calls; intros). reflexivity.
Qed.

Lemma id_name_color_line_calls (x : json) (out : string) :
  snd (Cli.id_name_color_line x out) = [].
Proof.
  unfold Cli.id_name_color_line. repeat (apply bind_lift_calls; intros). reflexivity.
Qed.

Lemma added_line_calls (x : json) (out : string) : snd (Cli.added_line x out) = [].
Proof.
  unfold Cli.added_line. repeat (apply bind_lift_calls; intros). reflexivity.
Qed.

Lemma for_each_calls {A B} (body : A -> B -> M B) (xs : list A) (acc : B) :
  (forall x b, snd (body x b) = []) -> snd (for_each xs acc body) = [].
Proof.
  intros Hbody. revert acc. induction xs as [|x xs IH]; intros acc; [reflexivity|].
  cbn [for_each]. unfold bind.
  specialize (Hbody x acc). destruct (body x acc) as [[b | e] calls]; simpl in *.
  - specialize (IH b). destruct (for_each xs b body) as [r calls']. simpl in *.
    now rewrite Hbody, IH.
  - exact Hbody.
Qed.

Lemma render_calls (k : action_kind) (v : json) : snd (render k v) = [].
Proof.
  destruct k; unfold render;
    first [ apply added_line_calls
          | apply bind_lift_calls; intros; apply for_each_calls; intros;
            first [apply id_name_line_calls | apply id_name_color_line_calls] ].
Qed.

Lemma bind_answer_calls {B} (send : http_call -> http_result)
    (json_loads : string -> option json) (c : http_call) (f : json -> M B) :
  (forall v, snd (f v) = []) ->
  snd (v <- answer send json_loads c ;; f v) = [c].
Proof.
  intros Hf. pose proof (answer_calls send json_loads c) as Hc.
  destruct (answer send json_loads c) as [[v | e] calls]; simpl in *.
  - specialize (Hf v). destruct (f v) as [r calls']. simpl in *.
    now rewrite Hc, Hf.
  - exact Hc.
Qed.

Lemma answer_ok (send : http_call -> http_result)
    (json_loads : string -> option json) (c : http_call) (r : response) (v : json) :
  send c = Responded r -> status_code r = 200%Z -> json_loads (text r) = Some v ->
  answer send json_loads c = (Return v, [c]).
Proof.
  intros Hs Hc Hv. unfold answer. now rewrite Hs, Hc, Hv.
Qed.

Lemma body_of_line (k : action_kind) (x : json) (e : entry) (out : string) :
  is_listing k = true -> holds k x e ->
  body_of k x out = (Return (out ++ line k e), []).
Proof.
  intros Hk (Hid & Hname & Hcolor).
  destruct k; try discriminate Hk; cbn [body_of line].
  - unfold Cli.id_name_line. rewrite Hid, Hname. simpl.
    now rewrite !append_assoc.
  - unfold Cli.id_name_line. rewrite Hid, Hname. simpl.
    now rewrite !append_assoc.
  - unfold Cli.id_name_color_line. rewrite Hid, Hname, (Hcolor eq_refl). simpl.
    now rewrite !append_assoc.
Qed.

Lemma for_each_lines (k : action_kind) (items : list json) (entries : list entry)
    (out : string) :
  is_listing k = true -> Forall2 (holds k) items entries ->
  for_each items out (body_of k) = (Return (out ++ output_of k entries), []).
Proof.
  intros Hk Hall. revert out.
  induction Hall as [|x e items entries Hx _ IH]; intros out.
  - simpl. now rewrite append_nil_r.
  - cbn [for_each output_of fold_right]. rewrite (body_of_line out Hk Hx).
    unfold bind. rewrite IH. now rewrite append_assoc.
Qed.

Lemma render_listing (k : action_kind) (items : list json) (entries : list entry) :
  is_listing k = true -> Forall2 (holds k) items entries ->
  render k (JArr items) = (Return (output_of k entries), []).
Proof.
  intros Hk Hall. pose proof (for_each_lines "" Hk Hall) as H.
  destruct k; try discriminate Hk;
    unfold render, lift, bind; cbn [iterate];
    cbn [body_of] in H; rewrite H; reflexivity.
Qed.

Lemma action_calls (send : http_call -> http_result)
    (json_loads : string -> option json) (a : Cli.args) (k : action_kind) :
  selected a = Some k -> complete a k = true ->
  snd (Cli.action send json_loads a)
  = [call_of (Trello.init (Cli.key a) (Cli.token a)) (operation_of a k)].
Proof.
  intros Hsel Hall. rewrite (action_complete send json_loads a Hsel Hall).
  rewrite run_operation_answer. apply bind_answer_calls, render_calls.
Qed.







(** The first example of the specification: the boards. *)
Example list_boards_example :
  Cli.main_try (Fixture.server (Response 200 Fixture.boards_text)) Fixture.decode
               Fixture.env
               (Cli.CommandLine None None true false false false false
                                None None None None None None None)
  = (Return ("b1 Board1" ++ Cli.LF),
     [HttpCall GET "https://api.trello.com/1/members/me/boards?key=K&token=T"
               [("Accept", "application/json")] None]).
Proof. reflexivity. Qed.




(** ** Records that cannot be printed *)

(** Case analysis on the next [x[k]] of a loop body. *)
Ltac next_field H :=
  match goal with
  | |- context [subscript ?x ?k] =>
      destruct (subscript x k) as [[| | | | ? | |] |] eqn:H
  end.

Lemma id_name_line_cases (x : json) (out : string) :
  (exists i n, subscript x "id" = Return (JStr i)
               /\ subscript x "name" = Return (JStr n)
               /\ Cli.id_name_line x out = (Return (out ++ (i ++ " " ++ n ++ Cli.LF)), []))
  \/ (exists e, Cli.id_name_line x out = (Raise e, [])
                /\ record_fault e
                /\ forall i n, ~ (subscript x "id" = Return (JStr i)
                                  /\ subscript x "name" = Return (JStr n))).
Proof.
  unfold Cli.id_name_line.
  assert (forall k, subscript x k = Raise (KeyError k) \/ subscript x k = Raise TypeError
                    \/ exists v, subscript x k = Return v) as Hsub.
  { intros k. unfold subscript. destruct x; auto.
    destruct (dict_get items k); eauto. }
  next_field Hid; try (right; eexists; split; [reflexivity|]; split;
                       [left; reflexivity | intros i n [Hi _]; discriminate Hi]).
  - next_field Hname; try (right; eexists; split; [reflexivity|]; split;
                           [left; reflexivity | intros i n [_ Hn]; discriminate Hn]).
    + left. exists s, s0. repeat split. simpl. now rewrite !append_assoc.
    + right. destruct (Hsub "name") as [Hk | [Ht | [v Hv]]]; rewrite Hname in *.
      * injection Hk as ->. eexists; split; [reflexivity|]. split.
        -- right; right; left; reflexivity.
        -- intros i n [_ Hn]; discriminate Hn.
      * injection Ht as ->. eexists; split; [reflexivity|]. split.
        -- left; reflexivity.
        -- intros i n [_ Hn]; discriminate Hn.
      * discriminate Hv.
  - right. destruct (Hsub "id") as [Hk | [Ht | [v Hv]]]; rewrite Hid in *.
    + injection Hk as ->. eexists; split; [reflexivity|]. split.
      * right; left; reflexivity.
      * intros i n [Hi _]; discriminate Hi.
    + injection Ht as ->. eexists; split; [reflexivity|]. split.
      * left; reflexivity.
      * intros i n [Hi _]; discriminate Hi.
    + discriminate Hv.
Qed.

Lemma subscript_raise (x : json) (k : string) (e : exn) :
  subscript x k = Raise e -> e = KeyError k \/ e = TypeError.
Proof.
  unfold subscript. destruct x; try (intros H; injection H as <-; auto).
  destruct (dict_get items k); intros H; [discriminate H|].
  injection H as <-; auto.
Qed.

(** A loop body that ends on a fault. *)
Ltac fault :=
  right; eexists; split; [reflexivity|]; split;
  [ solve [unfold record_fault; auto]
  | solve [intros; intros Hall; decompose [and] Hall; congruence] ].

Ltac raised H :=
  let E := fresh in
  destruct (subscript_raise _ _ H) as [E | E]; rewrite E in *; fault.

Lemma id_name_color_line_cases (x : json) (out : string) :
  (exists i n c, subscript x "id" = Return (JStr i)
                 /\ subscript x "name" = Return (JStr n)
                 /\ subscript x "color" = Return (JStr c)
                 /\ Cli.id_name_color_line x out
                    = (Return (out ++ (i ++ " " ++ n ++ " " ++ c ++ Cli.LF)), []))
  \/ (exists e, Cli.id_name_color_line x out = (Raise e, [])
                /\ record_fault e
                /\ forall i n c, ~ (subscript x "id" = Return (JStr i)
                                    /\ subscript x "name" = Return (JStr n)
                                    /\ subscript x "color" = Return (JStr c))).
Proof.
  unfold Cli.id_name_color_line.
  next_field Hid; try fault; [|raised Hid].
  next_field Hname; try fault; [|raised Hname].
  next_field Hcolor; try fault; [|raised Hcolor].
  left. exists s, s0, s1. repeat split. simpl. now rewrite !append_assoc.
Qed.

Lemma body_of_cases (k : action_kind) (x : json) (out : string) :
  is_listing k = true ->
  (exists e, holds k x e /\ body_of k x out = (Return (out ++ line k e), []))
  \/ (exists e, body_of k x out = (Raise e, [])
                /\ record_fault e
                /\ forall r, ~ holds k x r).
Proof.
  intros Hk. destruct k; try discriminate Hk; cbn [body_of].
  - destruct (id_name_line_cases x out) as [(i & n & Hi & Hn & H) | (e & H & He & Hno)].
    + left. exists (Entry i n ""). split; [|exact H].
      repeat split; [exact Hi | exact Hn | discriminate].
    + right. exists e. repeat split; [exact H | exact He |].
      intros r (Hi & Hn & _). apply (Hno _ _ (conj Hi Hn)).
  - destruct (id_name_line_cases x out) as [(i & n & Hi & Hn & H) | (e & H & He & Hno)].
    + left. exists (Entry i n ""). split; [|exact H].
      repeat split; [exact Hi | exact Hn | discriminate].
    + right. exists e. repeat split; [exact H | exact He |].
      intros r (Hi & Hn & _). apply (Hno _ _ (conj Hi Hn)).
  - destruct (id_name_color_line_cases x out)
      as [(i & n & c & Hi & Hn & Hc & H) | (e & H & He & Hno)].
    + left. exists (Entry i n c). split; [|exact H].
      repeat split; [exact Hi | exact Hn | intros _; exact Hc].
    + right. exists e. repeat split; [exact H | exact He |].
      intros r (Hi & Hn & Hc). apply (Hno _ _ _ (conj Hi (conj Hn (Hc eq_refl)))).
Qed.

Lemma for_each_cases (k : action_kind) (items : list json) (out : string) :
  is_listing k = true ->
  (exists entries, Forall2 (holds k) items entries
                   /\ for_each items out (body_of k)
                      = (Return (out ++ output_of k entries), []))
  \/ (exists e, for_each items out (body_of k) = (Raise e, [])
                /\ record_fault e
                /\ exists x, In x items /\ forall r, ~ holds k x r).
Proof.
  intros Hk. revert out. induction items as [|x items IH]; intros out.
  - left. exists []. split; [constructor|]. simpl. now rewrite append_nil_r.
  - cbn [for_each].
    destruct (@body_of_cases k x out Hk) as [(r & Hr & Hx) | (e & Hx & He & Hno)].
    + rewrite Hx. unfold bind.
      destruct (IH (out ++ line k r)) as [(entries & Hall & H) | (e & H & He & y & Hy & Hno)];
        rewrite H.
      * left. exists (r :: entries). split; [now constructor|].
        simpl. now rewrite append_assoc.
      * right. exists e. repeat split; [exact He|]. exists y. split; [now right | exact Hno].
    + rewrite Hx. right. exists e. repeat split; [exact He|].
      exists x. split; [now left | exact Hno].
Qed.

Lemma render_array_cases (k : action_kind) (items : list json) :
  is_listing k = true ->
  (exists entries, Forall2 (holds k) items entries
                   /\ render k (JArr items) = (Return (output_of k entries), []))
  \/ (exists e, render k (JArr items) = (Raise e, [])
                /\ record_fault e
                /\ exists x, In x items /\ forall r, ~ holds k x r).
Proof.
  intros Hk.
  assert (render k (JArr items)
          = (let (r, calls) := for_each items "" (body_of k) in (r, calls))) as ->.
  { destruct k; try discriminate Hk; unfold render, lift, bind; cbn [iterate body_of];
      destruct (for_each items "" _); reflexivity. }
  destruct (@for_each_cases k items "" Hk) as [(entries & Hall & H) | (e & H & He & Hx)];
    rewrite H.
  - left. exists entries. split; [exact Hall | reflexivity].
  - right. exists e. repeat split; assumption.
Qed.

Lemma action_answered (send : http_call -> http_result)
    (json_loads : string -> option json) (a : Cli.args) (k : action_kind)
    (r : response) (v : json) :
  answered send json_loads a k r v ->
  Cli.action send json_loads a
  = (fst (render k v),
     [call_of (Trello.init (Cli.key a) (Cli.token a)) (operation_of a k)]).
Proof.
  intros (Hsel & Hall & Hs & Hst & Hv).
  rewrite (action_complete send json_loads a Hsel Hall).
  rewrite run_operation_answer, (answer_ok send json_loads _ Hs Hst Hv).
  unfold bind. pose proof (render_calls k v) as Hc.
  destruct (render k v) as [o calls]. simpl in *. now rewrite Hc.
Qed.

Lemma Forall2_In_l {A B} (R : A -> B -> Prop) (xs : list A) (ys : list B) (x : A) :
  Forall2 R xs ys -> In x xs -> exists y, R x y.
Proof.
  induction 1 as [|x' y xs ys Hxy _ IH]; intros Hin; [contradiction|].
  destruct Hin as [<- | Hin]; [now exists y | now apply IH].
Qed.

(** X1.  A listing that returns has printed every element of the array:
    each one is a record with its strings, and the output is their lines. *)
Theorem listing_returns_only_records
    (send : http_call -> http_result) (json_loads : string -> option json)
    (a : Cli.args) (k : action_kind) (r : response) (items : list json)
    (out : string) (calls : list http_call) :
  answered send json_loads a k r (JArr items) ->
  is_listing k = true ->
  Cli.action send json_loads a = (Return out, calls) ->
  exists entries,
    Forall2 (holds k) items entries /\ out = output_of k entries.
Proof.
  intros Hans Hk Hact. rewrite (action_answered Hans) in Hact.
  destruct (@render_array_cases k items Hk) as [(entries & Hall & H) | (e & H & _)];
    rewrite H in Hact; simpl in Hact.
  - exists entries. split; [exact Hall|]. now injection Hact as <- _.
  - discriminate Hact.
Qed.

Lemma listing_returns_only_records_witness :
  exists entries,
    Forall2 (holds Labels)
            [JObj [("id", JStr "l1"); ("name", JStr "Bugs"); ("color", JStr "red")]]
            entries
    /\ "l1 Bugs red" ++ Cli.LF = output_of Labels entries.
Proof.
  apply (@listing_returns_only_records
           (Fixture.server (Response 200 Fixture.labels_text)) Fixture.decode
           Fixture.labels_of_board Labels (Response 200 Fixture.labels_text)
           _ _ [HttpCall GET "https://api.trello.com/1/boards/B1/labels?key=K&token=T"
                         [("Accept", "application/json")] None]).
  - repeat split; reflexivity.
  - reflexivity.
  - reflexivity.
Defined.

(** X2.  One element of the array that is not a record aborts the whole
    listing: the action raises [TypeError] or a [KeyError] of the missing
    key, after its call, and returns no line at all. *)
Theorem listing_aborts_on_bad_record
    (send : http_call -> http_result) (json_loads : string -> option json)
    (a : Cli.args) (k : action_kind) (r : response) (items : list json) (x : json) :
  answered send json_loads a k r (JArr items) ->
  is_listing k = true ->
  In x items ->
  (forall e, ~ holds k x e) ->
  exists e,
    Cli.action send json_loads a
    = (Raise e, [call_of (Trello.init (Cli.key a) (Cli.token a)) (operation_of a k)])
    /\ record_fault e.
Proof.
  intros Hans Hk Hin Hbad. rewrite (action_answered Hans).
  destruct (@render_array_cases k items Hk) as [(entries & Hall & _) | (e & H & He & _)].
  - destruct (@Forall2_In_l _ _ _ _ _ x Hall Hin) as [y Hy]. destruct (Hbad y Hy).
  - exists e. rewrite H. split; [reflexivity | exact He].
Qed.

Lemma listing_aborts_on_bad_record_witness :
  exists e,
    Cli.action (Fixture.server Sample.ok)
               (Sample.decode_as (JArr [Sample.red_label; Sample.plain_label]))
               Fixture.labels_of_board
    = (Raise e, [call_of (Trello.init "K" "T") (ListLabels "B1")])
    /\ record_fault e.
Proof.
  apply (@listing_aborts_on_bad_record
           (Fixture.server Sample.ok)
           (Sample.decode_as (JArr [Sample.red_label; Sample.plain_label]))
           Fixture.labels_of_board Labels Sample.ok
           [Sample.red_label; Sample.plain_label] Sample.plain_label).
  - repeat split; reflexivity.
  - reflexivity.
  - right; left; reflexivity.
  - intros e (_ & _ & Hc). specialize (Hc eq_refl). discriminate Hc.
Defined.

(** X3.  A 200 body that decodes to something other than an array: an
    empty dict and an empty string give an empty listing; every other
    value makes the listing raise [TypeError]. *)
Theorem listing_of_non_array
    (send : http_call -> http_result) (json_loads : string -> option json)
    (a : Cli.args) (k : action_kind) (r : response) (v : json) :
  answered send json_loads a k r v ->
  is_listing k = true ->
  (forall items, v <> JArr items) ->
  Cli.action send json_loads a
  = (if match v with JObj [] => true | JStr "" => true | _ => false end
     then Return "" else Raise TypeError,
     [call_of (Trello.init (Cli.key a) (Cli.token a)) (operation_of a k)]).
Proof.
  intros Hans Hk Hv. rewrite (action_answered Hans). f_equal.
  destruct v as [| | | | s | items | items];
    try (destruct k; try discriminate Hk; reflexivity).
  - destruct s; destruct k; try discriminate Hk; reflexivity.
  - destruct (Hv items eq_refl).
  - destruct items as [|[key x] items]; destruct k; try discriminate Hk; reflexivity.
Qed.

Lemma listing_of_non_array_witness :
  Cli.action (Fixture.server Sample.ok) (Sample.decode_as (JObj [("id", JStr "b1")]))
             Sample.boards
  = (Raise TypeError, [call_of (Trello.init "K" "T") ListBoards])
  /\ Cli.action (Fixture.server Sample.ok) (Sample.decode_as (JObj [])) Sample.boards
     = (Return "", [call_of (Trello.init "K" "T") ListBoards]).
Proof.
  split.
  - apply (@listing_of_non_array (Fixture.server Sample.ok)
             (Sample.decode_as (JObj [("id", JStr "b1")])) Sample.boards Boards
             Sample.ok (JObj [("id", JStr "b1")])).
    + repeat split; reflexivity.
    + reflexivity.
    + discriminate.
  - apply (@listing_of_non_array (Fixture.server Sample.ok)
             (Sample.decode_as (JObj [])) Sample.boards Boards
             Sample.ok (JObj [])).
    + repeat split; reflexivity.
    + reflexivity.
    + discriminate.
Defined.

(** X4.  An [--add-card] or [--add-comment] answered with 200 prints the
    line of the id exactly when the decoded body is a dict whose [id] is a
    string; a dict without [id] raises [KeyError], any other body or id
    raises [TypeError]. *)
Theorem mutation_needs_string_id
    (send : http_call -> http_result) (json_loads : string -> option json)
    (a : Cli.args) (k : action_kind) (r : response) (v : json) :
  answered send json_loads a k r v ->
  is_listing k = false ->
  Cli.action send json_loads a
  = (match subscript v "id" with
     | Return (JStr x) => Return (x ++ " added." ++ Cli.LF)
     | Return _ => Raise TypeError
     | Raise e => Raise e
     end,
     [call_of (Trello.init (Cli.key a) (Cli.token a)) (operation_of a k)])
  /\ (forall e, subscript v "id" = Raise e -> e = KeyError "id" \/ e = TypeError).
Proof.
  intros Hans Hk. split; [|apply subscript_raise].
  rewrite (action_answered Hans). f_equal.
  destruct k; try discriminate Hk; unfold render, Cli.added_line;
    destruct (subscript v "id") as [[| | | | s | |] |]; reflexivity.
Qed.

Lemma mutation_needs_string_id_witness :
  Cli.action (Fixture.server Sample.ok) (Sample.decode_as (JObj [("id", JInt 7)]))
             Fixture.card_in_list
  = (Raise TypeError,
     [call_of (Trello.init "K" "T") (AddCard "L1" "Name" "Desc" (Some ["a"; "b"]))]).
Proof.
  apply (proj1 (@mutation_needs_string_id
                  (Fixture.server Sample.ok) (Sample.decode_as (JObj [("id", JInt 7)]))
                  Fixture.card_in_list Card Sample.ok
                  (JObj [("id", JInt 7)])
                  (conj eq_refl (conj eq_refl (conj eq_refl (conj eq_refl eq_refl))))
                  eq_refl)).
Defined.

(** ** One call per run *)

Lemma render_fault (k : action_kind) (v : json) (e : exn) :
  fst (render k v) = Raise e -> record_fault e.
Proof.
  destruct (is_listing k) eqn:Hk.
  - assert ((exists items, iterate v = Return items
                           /\ render k v
                              = (let (r, calls) := for_each items "" (body_of k) in (r, calls)))
            \/ render k v = (Raise TypeError, [])) as [(items & _ & ->) | ->].
    { destruct k; try discriminate Hk; unfold render, lift, bind; cbn [body_of];
        (destruct (iterate v) as [items | e'] eqn:Hit;
         [ left; exists items; split; [reflexivity|];
           destruct (for_each items "" _); reflexivity
         | right; destruct v; simpl in Hit; try discriminate Hit;
           injection Hit as <-; reflexivity ]). }
    + destruct (@for_each_cases k items "" Hk) as [(entries & _ & H) | (e' & H & He & _)];
        rewrite H; simpl; intros Heq; [discriminate Heq | now injection Heq as <-].
    + simpl. intros Heq. injection Heq as <-. left; reflexivity.
  - destruct k; try discriminate Hk; unfold render, Cli.added_line;
      (destruct (subscript v "id") as [[| | | | s | |] | e'] eqn:Hid; simpl;
       intros Heq; try discriminate Heq; try (injection Heq as <-; left; reflexivity);
       injection Heq as <-;
       destruct (subscript_raise _ _ Hid) as [-> | ->];
       [right; left; reflexivity | left; reflexivity]).
Qed.

Lemma answer_render (send : http_call -> http_result)
    (json_loads : string -> option json) (c : http_call) (k : action_kind) :
  usage_error (v <- answer send json_loads c ;; render k v) = false
  /\ snd (v <- answer send json_loads c ;; render k v) = [c].
Proof.
  split; [|apply bind_answer_calls, render_calls].
  unfold answer. destruct (send c) as [r | msg]; [|reflexivity].
  destruct (200 =? status_code r)%Z; [|reflexivity].
  destruct (json_loads (text r)) as [v|]; [|reflexivity].
  unfold bind, usage_error. pose proof (@render_fault k v) as Hf.
  destruct (render k v) as [[out | e] calls]; [reflexivity|]. simpl in *.
  destruct (Hf e eq_refl) as [-> | [-> | [-> | ->]]]; reflexivity.
Qed.

Lemma getConfig_returns (env : Cli.environ) (cl : Cli.command_line) (a : Cli.args) :
  Cli.getConfig env cl = Return a ->
  Cli.ns_key (Cli.parse_args env cl) = Some (Cli.key a)
  /\ Cli.ns_token (Cli.parse_args env cl) = Some (Cli.token a)
  /\ Cli.key a <> ""
  /\ Cli.token a <> ""
  /\ Cli.label_ids a
     = re_split_spaced_comma (Cli.with_default (Cli.opt_label_ids cl) "").
Proof.
  unfold Cli.getConfig.
  destruct (truthy (Cli.ns_key (Cli.parse_args env cl))) eqn:Hk; [|discriminate].
  destruct (truthy (Cli.ns_token (Cli.parse_args env cl))) eqn:Ht; [|discriminate].
  cbn [negb orb].
  destruct (Cli.ns_key (Cli.parse_args env cl)) as [k|]; [|discriminate].
  destruct (Cli.ns_token (Cli.parse_args env cl)) as [t|]; [|discriminate].
  intros H. injection H as <-. cbn [Cli.key Cli.token Cli.label_ids].
  repeat split; try reflexivity.
  - intros ->. discriminate Hk.
  - intros ->. discriminate Ht.
Qed.

Lemma getConfig_cases (env : Cli.environ) (cl : Cli.command_line) :
  Cli.getConfig env cl = Raise (CliException Cli.CREDENTIALS_MESSAGE)
  \/ exists a, Cli.getConfig env cl = Return a.
Proof.
  destruct (truthy (Cli.ns_key (Cli.parse_args env cl))) eqn:Hk;
    [destruct (truthy (Cli.ns_token (Cli.parse_args env cl))) eqn:Ht|].
  - right. destruct (getConfig_accepts env cl Hk Ht) as (a & Ha & _). now exists a.
  - left. apply getConfig_rejects. now right.
  - left. apply getConfig_rejects. now left.
Qed.

Lemma action_cases (send : http_call -> http_result)
    (json_loads : string -> option json) (a : Cli.args) :
  (exists msg, Cli.action send json_loads a = (Raise (CliException msg), []))
  \/ (exists k,
        selected a = Some k /\ complete a k = true
        /\ usage_error (Cli.action send json_loads a) = false
        /\ snd (Cli.action send json_loads a)
           = [call_of (Trello.init (Cli.key a) (Cli.token a)) (operation_of a k)]).
Proof.
  destruct (selected a) as [k|] eqn:Hsel.
  - destruct (complete a k) eqn:Hall.
    + right. exists k. split; [reflexivity|]. split; [exact Hall|].
      rewrite (action_complete send json_loads a Hsel Hall), run_operation_answer.
      apply answer_render.
    + left. destruct (action_incomplete send json_loads a Hsel Hall) as (msg & _ & H).
      now exists msg.
  - left. exists Cli.NO_ACTION_MESSAGE. now apply action_unselected.
Qed.

(** X5.  A run issues no HTTP call when it ends on a [CliException] and
    exactly one otherwise, whatever the command line, the environment, the
    transport and the decoder. *)
Theorem run_calls_once_unless_usage_error
    (send : http_call -> http_result) (json_loads : string -> option json)
    (env : Cli.environ) (cl : Cli.command_line) :
  (usage_error (Cli.main_try send json_loads env cl) = true
   /\ snd (Cli.main_try send json_loads env cl) = [])
  \/ (usage_error (Cli.main_try send json_loads env cl) = false
      /\ exists c, snd (Cli.main_try send json_loads env cl) = [c]).
Proof.
  destruct (getConfig_cases env cl) as [Hc | [a Ha]].
  - left. rewrite (main_try_rejects send json_loads env cl Hc). split; reflexivity.
  - rewrite (main_try_accepts send json_loads env cl Ha).
    destruct (action_cases send json_loads a) as [[msg ->] | (k & _ & _ & Hu & Hc)].
    + left. split; reflexivity.
    + right. split; [exact Hu|]. eexists. exact Hc.
Qed.

(** X6.  Every HTTP call of a run goes to the base host with the header
    [Accept: application/json], and ends its URL with the key and the
    token that [parse_args] resolved; a GET has no parameters and a POST
    has some. *)
Theorem every_call_carries_credentials
    (send : http_call -> http_result) (json_loads : string -> option json)
    (env : Cli.environ) (cl : Cli.command_line) (c : http_call) :
  In c (snd (Cli.main_try send json_loads env cl)) ->
  exists k t path,
    Cli.ns_key (Cli.parse_args env cl) = Some k
    /\ Cli.ns_token (Cli.parse_args env cl) = Some t
    /\ call_url c = "https://api.trello.com" ++ path ++ "?key=" ++ k ++ "&token=" ++ t
    /\ starts_with "/1/" path = true
    /\ call_headers c = [("Accept", "application/json")]
    /\ (call_verb c = GET -> call_params c = None)
    /\ (call_verb c = POST -> call_params c <> None).
Proof.
  destruct (getConfig_cases env cl) as [Hc | [a Ha]].
  - rewrite (main_try_rejects send json_loads env cl Hc). intros [].
  - rewrite (main_try_accepts send json_loads env cl Ha).
    destruct (getConfig_returns env cl Ha) as (Hk & Ht & _).
    destruct (action_cases send json_loads a) as [[msg ->] | (k & _ & _ & _ & ->)];
      [intros []|].
    intros [<- | []]. exists (Cli.key a), (Cli.token a).
    destruct k; eexists; (split; [exact Hk|]); (split; [exact Ht|]);
      (split; [reflexivity|]); repeat split; try reflexivity; discriminate.
Qed.

Lemma every_call_carries_credentials_witness :
  exists k t path,
    Cli.ns_key (Cli.parse_args Fixture.env Sample.list_boards) = Some k
    /\ Cli.ns_token (Cli.parse_args Fixture.env Sample.list_boards) = Some t
    /\ "https://api.trello.com/1/members/me/boards?key=K&token=T"
       = "https://api.trello.com" ++ path ++ "?key=" ++ k ++ "&token=" ++ t
    /\ starts_with "/1/" path = true
    /\ [("Accept", "application/json")] = [("Accept", "application/json")]
    /\ (GET = GET -> @None (list (string * string)) = None)
    /\ (GET = POST -> @None (list (string * string)) <> None).
Proof.
  exact (@every_call_carries_credentials
           (Fixture.server Fixture.unauthorized) Fixture.decode
           Fixture.env Sample.list_boards
           (HttpCall GET "https://api.trello.com/1/members/me/boards?key=K&token=T"
                     [("Accept", "application/json")] None)
           (or_introl eq_refl)).
Defined.

(** ** What [getConfig] returns *)

Lemma split_from_not_nil (s piece : string) (skip : nat) :
  split_from skip piece s <> [].
Proof.
  revert skip piece. induction s as [|c t IH]; intros skip piece; [discriminate|].
  cbn [split_from]. destruct skip as [|k]; [|apply IH].
  destruct (match_separator (String c t)) as [[|k]|]; first [apply IH | discriminate].
Qed.

(** X7.  [getConfig] returns its dict exactly when the key and the token
    both resolve to a non-empty string; the key and the token of the dict
    are then never empty, and its label ids always hold at least one
    string. *)
Theorem getConfig_returns_exactly
    (env : Cli.environ) (cl : Cli.command_line) :
  ((exists a, Cli.getConfig env cl = Return a)
   <-> truthy (Cli.ns_key (Cli.parse_args env cl)) = true
       /\ truthy (Cli.ns_token (Cli.parse_args env cl)) = true)
  /\ forall a, Cli.getConfig env cl = Return a ->
               Cli.key a <> "" /\ Cli.token a <> "" /\ Cli.label_ids a <> [].
Proof.
  split; [split|].
  - intros [a Ha].
    destruct (truthy (Cli.ns_key (Cli.parse_args env cl))) eqn:Hk;
      [destruct (truthy (Cli.ns_token (Cli.parse_args env cl))) eqn:Ht|].
    + split; reflexivity.
    + rewrite (getConfig_rejects env cl (or_intror Ht)) in Ha. discriminate Ha.
    + rewrite (getConfig_rejects env cl (or_introl Hk)) in Ha. discriminate Ha.
  - intros [Hk Ht]. destruct (getConfig_accepts env cl Hk Ht) as (a & Ha & _).
    now exists a.
  - intros a Ha. destruct (getConfig_returns env cl Ha) as (_ & _ & Hk & Ht & Hl).
    repeat split; [exact Hk | exact Ht |]. rewrite Hl. apply split_from_not_nil.
Qed.

Lemma getConfig_returns_exactly_witness :
  Cli.key (Cli.Args "K" "T" true false false false false
                    None None None None None None [""]) <> ""
  /\ Cli.token (Cli.Args "K" "T" true false false false false
                         None None None None None None [""]) <> ""
  /\ Cli.label_ids (Cli.Args "K" "T" true false false false false
                             None None None None None None [""]) <> [].
Proof.
  exact (proj2 (getConfig_returns_exactly Fixture.env Sample.list_boards) _ eq_refl).
Defined.

(** X8.  Given on the command line, [--key] and [--token] decide alone:
    the environment changes nothing to the run. *)
Theorem options_win_over_environment
    (send : http_call -> http_result) (json_loads : string -> option json)
    (env env' : Cli.environ) (cl : Cli.command_line) (k t : string) :
  Cli.opt_key cl = Some k ->
  Cli.opt_token cl = Some t ->
  Cli.main_try send json_loads env cl = Cli.main_try send json_loads env' cl.
Proof.
  intros Hk Ht.
  assert (Cli.parse_args env cl = Cli.parse_args env' cl) as Hp
      by (unfold Cli.parse_args; now rewrite Hk, Ht).
  unfold Cli.main_try, Cli.getConfig. now rewrite Hp.
Qed.

Lemma options_win_over_environment_witness :
  Cli.main_try (Fixture.server Fixture.unauthorized) Fixture.decode
               Fixture.env Sample.list_boards_with_credentials
  = Cli.main_try (Fixture.server Fixture.unauthorized) Fixture.decode
                 Fixture.no_env Sample.list_boards_with_credentials.
Proof.
  exact (@options_win_over_environment
           (Fixture.server Fixture.unauthorized) Fixture.decode
           Fixture.env Fixture.no_env Sample.list_boards_with_credentials
           "K2" "T2" eq_refl eq_refl).
Defined.

(** ** What an action reads *)

Lemma complete_agree (k : action_kind) (a b : Cli.args) :
  agree_on k a b -> complete a k = complete b k.
Proof.
  intros (_ & _ & Hv & _). unfold complete.
  induction (required k) as [|f fs IH]; [reflexivity|].
  cbn [forallb]. rewrite (Hv f (or_introl eq_refl)). f_equal.
  apply IH. intros g Hg. apply Hv. now right.
Qed.

Lemma operation_agree (k : action_kind) (a b : Cli.args) :
  agree_on k a b -> operation_of a k = operation_of b k.
Proof.
  intros (_ & _ & Hv & Hl).
  destruct k; cbn [operation_of].
  - reflexivity.
  - pose proof (Hv BoardId (or_introl eq_refl)) as H. cbn [value] in H.
    now rewrite H.
  - pose proof (Hv BoardId (or_introl eq_refl)) as H. cbn [value] in H.
    now rewrite H.
  - pose proof (Hv ListId (or_introl eq_refl)) as H1.
    pose proof (Hv Name (or_intror (or_introl eq_refl))) as H2.
    pose proof (Hv Description (or_intror (or_intror (or_introl eq_refl)))) as H3.
    cbn [value] in H1, H2, H3. now rewrite H1, H2, H3, (Hl eq_refl).
  - pose proof (Hv CardId (or_introl eq_refl)) as H1.
    pose proof (Hv CommentText (or_intror (or_introl eq_refl))) as H2.
    cbn [value] in H1, H2. now rewrite H1, H2.
Qed.

(** X9.  An action reads the key, the token and the fields of the branch
    it takes, and nothing else: two dicts that take the same branch and
    agree on those give the same result and the same call. *)
Theorem action_reads_only_its_branch
    (send : http_call -> http_result) (json_loads : string -> option json)
    (a b : Cli.args) (k : action_kind) :
  selected a = Some k -> selected b = Some k -> agree_on k a b ->
  Cli.action send json_loads a = Cli.action send json_loads b.
Proof.
  intros Ha Hb Hagree.
  pose proof (complete_agree Hagree) as Hc.
  destruct (complete a k) eqn:Hall.
  - rewrite (action_complete send json_loads a Ha Hall).
    rewrite (action_complete send json_loads b Hb (eq_sym Hc)).
    rewrite (operation_agree Hagree).
    destruct Hagree as (-> & -> & _). reflexivity.
  - destruct (action_incomplete send json_loads a Ha Hall) as (m & Hm & ->).
    destruct (action_incomplete send json_loads b Hb (eq_sym Hc)) as (m' & Hm' & ->).
    congruence.
Qed.

Lemma action_reads_only_its_branch_witness :
  Cli.action (Fixture.server (Response 200 Fixture.boards_text)) Fixture.decode
             Sample.boards
  = Cli.action (Fixture.server (Response 200 Fixture.boards_text)) Fixture.decode
               Sample.boards_with_more.
Proof.
  apply (@action_reads_only_its_branch
           (Fixture.server (Response 200 Fixture.boards_text)) Fixture.decode
           Sample.boards Sample.boards_with_more Boards eq_refl eq_refl).
  repeat split; try reflexivity.
  - intros f [].
  - discriminate.
Defined.

(** ** The split of the label ids *)

Lemma space_run_blank (w rest : string) :
  (forall c, In c (list_ascii_of_string w) -> is_space c = true) ->
  space_run (w ++ rest) = String.length w + space_run rest.
Proof.
  induction w as [|c w IH]; intros Hw; [reflexivity|].
  cbn [append space_run String.length]. rewrite (Hw c (or_introl eq_refl)).
  cbn [Nat.add]. f_equal. apply IH. intros c' Hc'. apply Hw. now right.
Qed.

Lemma drop_append (w rest : string) : drop (String.length w) (w ++ rest) = rest.
Proof.
  induction w as [|c w IH]; [now destruct rest | exact IH].
Qed.

Lemma split_from_skip (w rest piece : string) :
  split_from (String.length w) piece (w ++ rest) = split_from 0 piece rest.
Proof.
  induction w as [|c w IH]; [reflexivity | exact IH].
Qed.

Lemma split_from_spaceless_prefix (a rest piece : string) :
  spaceless a ->
  split_from 0 piece (a ++ rest) = split_from 0 (piece ++ a) rest.
Proof.
  revert piece. induction a as [|c a IH]; intros piece Ha.
  - simpl. now rewrite append_nil_r.
  - assert (is_space c = false) as Hc by (apply Ha; left; reflexivity).
    cbn [append split_from]. unfold match_separator. cbn [space_run]. rewrite Hc.
    cbn [drop]. rewrite IH.
    + now rewrite append_assoc.
    + intros c' Hin. apply Ha. now right.
Qed.

Lemma match_separator_blank (w1 w2 rest : string) :
  blank w1 -> blank w2 -> space_run rest = 0 ->
  match_separator (w1 ++ "," ++ w2 ++ rest)
  = Some (String.length (w1 ++ "," ++ w2)).
Proof.
  intros [Hne1 Hw1] [Hne2 Hw2] Hrest. unfold match_separator. cbv zeta.
  rewrite (@space_run_blank w1 _ Hw1). change (space_run ("," ++ w2 ++ rest)) with 0.
  rewrite Nat.add_0_r.
  destruct w1 as [|c1 w1]; [contradiction|].
  cbn [String.length append drop]. rewrite drop_append.
  change ("," ++ w2 ++ rest) with (String "," (w2 ++ rest)). cbv iota beta.
  rewrite (@space_run_blank w2 _ Hw2), Hrest, Nat.add_0_r.
  destruct w2 as [|c2 w2]; [contradiction|]. cbn [String.length]. f_equal. f_equal.
  clear. induction w1 as [|c w IH]; cbn [append String.length Nat.add].
  - reflexivity.
  - f_equal. exact IH.
Qed.

(** X10.  Where the comma stands between white space, the split works: a
    first id without white space, white space, a comma, white space, then
    a rest that does not start with white space, give the first id
    followed by the split of the rest. *)
Theorem re_split_at_spaced_comma (a w1 w2 rest : string) :
  spaceless a -> blank w1 -> blank w2 -> space_run rest = 0 ->
  re_split_spaced_comma (a ++ w1 ++ "," ++ w2 ++ rest)
  = a :: re_split_spaced_comma rest.
Proof.
  intros Ha Hw1 Hw2 Hrest. unfold re_split_spaced_comma.
  rewrite (@split_from_spaceless_prefix a _ "" Ha). cbn [append].
  pose proof (@match_separator_blank w1 w2 rest Hw1 Hw2 Hrest) as Hm.
  assert (w1 ++ "," ++ w2 ++ rest = (w1 ++ "," ++ w2) ++ rest) as Heq
      by now rewrite !append_assoc.
  rewrite Heq in *.
  destruct (w1 ++ "," ++ w2) as [|c sep] eqn:Hsep.
  - destruct Hw1 as [Hne _]. destruct w1; [contradiction | discriminate Hsep].
  - cbn [append] in *. rewrite Heq. cbn [split_from]. rewrite Hm. cbn [String.length].
    now rewrite split_from_skip.
Qed.

Lemma re_split_at_spaced_comma_witness :
  re_split_spaced_comma ("a" ++ " " ++ "," ++ "  " ++ "b,c")
  = "a" :: re_split_spaced_comma "b,c".
Proof.
  apply re_split_at_spaced_comma.
  - intros c [<- | []]. reflexivity.
  - split; [discriminate|]. intros c [<- | []]. reflexivity.
  - split; [discriminate|]. intros c [<- | [<- | []]]; reflexivity.
  - reflexivity.
Defined.

(** X11.  A [--label_ids] value without white space reaches the wire as
    it was typed: the one call of [--add-card] carries it whole as
    [idLabels], commas included (and the empty string when the option is
    not given). *)
Theorem label_ids_reach_the_wire
    (send : http_call -> http_result) (json_loads : string -> option json)
    (env : Cli.environ) (cl : Cli.command_line) (a : Cli.args) :
  Cli.getConfig env cl = Return a ->
  selected a = Some Card ->
  complete a Card = true ->
  spaceless (Cli.with_default (Cli.opt_label_ids cl) "") ->
  snd (Cli.main_try send json_loads env cl)
  = [HttpCall POST
       ("https://api.trello.com" ++ "/1/cards"
        ++ "?key=" ++ Cli.key a ++ "&token=" ++ Cli.token a)
       [("Accept", "application/json")]
       (Some [("idList", Cli.held (Cli.list_id a));
              ("name", Cli.held (Cli.name a));
              ("desc", Cli.held (Cli.description a));
              ("idLabels", Cli.with_default (Cli.opt_label_ids cl) "")])].
Proof.
  intros Ha Hsel Hall Hs.
  rewrite (main_try_accepts send json_loads env cl Ha).
  rewrite (action_calls send json_loads a Hsel Hall).
  cbn [operation_of call_of]. rewrite (label_ids_without_space env cl Ha Hs).
  reflexivity.
Qed.

Lemma label_ids_reach_the_wire_witness :
  snd (Cli.main_try (Fixture.server (Response 200 Fixture.card_text)) Fixture.decode
                    Fixture.env Fixture.card_with_labels)
  = [HttpCall POST "https://api.trello.com/1/cards?key=K&token=T"
       [("Accept", "application/json")]
       (Some [("idList", "L1"); ("name", "Name"); ("desc", "Desc");
              ("idLabels", "a,b")])].
Proof.
  apply (@label_ids_reach_the_wire
           (Fixture.server (Response 200 Fixture.card_text)) Fixture.decode
           Fixture.env Fixture.card_with_labels
           (Cli.Args "K" "T" false false false true false
                     None (Some "L1") None (Some "Name") (Some "Desc") None ["a,b"])
           eq_refl eq_refl eq_refl).
  intros c [<- | [<- | [<- | []]]]; reflexivity.
Defined.

(** ** How the process ends *)

(** X12.  A run that ends on a [CliException] ends the process with
    status 1, nothing on the standard output, no HTTP call, and on the
    standard error one of the six messages of the program followed by a
    newline. *)
Theorem usage_error_ends_the_process
    (send : http_call -> http_result) (json_loads : string -> option json)
    (format_exc : exn -> string) (env : Cli.environ) (cl : Cli.command_line) :
  usage_error (Cli.main_try send json_loads env cl) = true ->
  exists msg,
    main send json_loads format_exc env cl = (Process "" (msg ++ Cli.LF) 1, [])
    /\ In msg [Cli.CREDENTIALS_MESSAGE; Cli.NO_ACTION_MESSAGE; Cli.COLUMNS_MESSAGE;
               Cli.LABELS_MESSAGE; Cli.CARD_MESSAGE; Cli.COMMENT_MESSAGE].
Proof.
  unfold main. destruct (getConfig_cases env cl) as [Hc | [a Ha]].
  - rewrite (main_try_rejects send json_loads env cl Hc). intros _.
    eexists; split; [reflexivity | now left].
  - rewrite (main_try_accepts send json_loads env cl Ha).
    destruct (selected a) as [k|] eqn:Hsel.
    + destruct (complete a k) eqn:Hall.
      * rewrite (action_complete send json_loads a Hsel Hall), run_operation_answer.
        intros Hu. rewrite (proj1 (answer_render send json_loads _ k)) in Hu.
        discriminate Hu.
      * destruct (action_incomplete send json_loads a Hsel Hall) as (msg & Hm & ->).
        intros _. exists msg. split; [reflexivity|].
        destruct k; simpl in Hm; try discriminate Hm; injection Hm as <-; simpl; auto 7.
    + rewrite (action_unselected send json_loads a Hsel). intros _.
      eexists; split; [reflexivity | right; now left].
Qed.

Lemma usage_error_ends_the_process_witness :
  exists msg,
    main (Fixture.server Fixture.unauthorized) Fixture.decode Sample.trace
         Fixture.env Fixture.bare
    = (Process "" (msg ++ Cli.LF) 1, [])
    /\ In msg [Cli.CREDENTIALS_MESSAGE; Cli.NO_ACTION_MESSAGE; Cli.COLUMNS_MESSAGE;
               Cli.LABELS_MESSAGE; Cli.CARD_MESSAGE; Cli.COMMENT_MESSAGE].
Proof.
  exact (@usage_error_ends_the_process
           (Fixture.server Fixture.unauthorized) Fixture.decode Sample.trace
           Fixture.env Fixture.bare eq_refl).
Defined.

(** X13.  An answer whose status is not 200 does not end the process on
    the bare message: [ApiRequestException] is not a [CliException], so
    the process ends with status 1 and the traceback of the exception on
    the standard error, nothing on the standard output, after its one
    call. *)
Theorem api_error_ends_with_traceback
    (send : http_call -> http_result) (json_loads : string -> option json)
    (format_exc : exn -> string) (env : Cli.environ) (cl : Cli.command_line)
    (a : Cli.args) (k : action_kind) (r : response) :
  Cli.getConfig env cl = Return a ->
  selected a = Some k ->
  complete a k = true ->
  send (call_of (Trello.init (Cli.key a) (Cli.token a)) (operation_of a k))
  = Responded r ->
  status_code r <> 200%Z ->
  main send json_loads format_exc env cl
  = (Process ""
       (format_exc
          (ApiRequestException
             ("Trello API returned status code " ++ str_of_int (status_code r)
              ++ ". response body: " ++ text r)) ++ Cli.LF)
       1,
     [call_of (Trello.init (Cli.key a) (Cli.token a)) (operation_of a k)]).
Proof.
  intros Ha Hsel Hall Hs Hst. unfold main.
  rewrite (main_try_accepts send json_loads env cl Ha).
  rewrite (action_complete send json_loads a Hsel Hall), run_operation_answer.
  unfold answer. rewrite Hs.
  destruct (Z.eqb_spec 200 (status_code r)) as [Heq | _]; [congruence|].
  reflexivity.
Qed.

Lemma api_error_ends_with_traceback_witness :
  main (Fixture.server Fixture.unauthorized) Fixture.decode Sample.trace
       Fixture.env Sample.list_boards
  = (Process ""
       (Sample.trace
          (ApiRequestException
             ("Trello API returned status code " ++ "401"
              ++ ". response body: " ++ Fixture.quoted "unauthorized")) ++ Cli.LF)
       1,
     [call_of (Trello.init "K" "T") ListBoards]).
Proof.
  apply (@api_error_ends_with_traceback
           (Fixture.server Fixture.unauthorized) Fixture.decode Sample.trace
           Fixture.env Sample.list_boards Sample.boards Boards Fixture.unauthorized
           eq_refl eq_refl eq_refl eq_refl).
  discriminate.
Defined.

(** X14.  A listing that succeeds ends the process with status 0 and
    nothing on the standard error; the standard output holds the lines of
    the records and then one more newline, that of [print]. *)
Theorem listing_ends_with_blank_line
    (send : http_call -> http_result) (json_loads : string -> option json)
    (format_exc : exn -> string) (env : Cli.environ) (cl : Cli.command_line)
    (a : Cli.args) (k : action_kind) (r : response)
    (items : list json) (entries : list entry) :
  Cli.getConfig env cl = Return a ->
  answered send json_loads a k r (JArr items) ->
  is_listing k = true ->
  Forall2 (holds k) items entries ->
  main send json_loads format_exc env cl
  = (Process (output_of k entries ++ Cli.LF) "" 0,
     [call_of (Trello.init (Cli.key a) (Cli.token a)) (operation_of a k)]).
Proof.
  intros Ha Hans Hk Hall. unfold main.
  rewrite (main_try_accepts send json_loads env cl Ha).
  rewrite (action_answered Hans), (render_listing Hk Hall). reflexivity.
Qed.

Lemma listing_ends_with_blank_line_witness :
  main (Fixture.server (Response 200 Fixture.boards_text)) Fixture.decode Sample.trace
       Fixture.env Sample.list_boards
  = (Process ("b1 Board1" ++ Cli.LF ++ Cli.LF) "" 0,
     [call_of (Trello.init "K" "T") ListBoards]).
Proof.
  apply (@listing_ends_with_blank_line
           (Fixture.server (Response 200 Fixture.boards_text)) Fixture.decode
           Sample.trace Fixture.env Sample.list_boards Sample.boards Boards
           (Response 200 Fixture.boards_text)
           [JObj [("id", JStr "b1"); ("name", JStr "Board1")]]
           [Entry "b1" "Board1" ""] eq_refl).
  - repeat split; reflexivity.
  - reflexivity.
  - constructor; [|constructor]. repeat split; try reflexivity. discriminate.
Defined.

(** ** Faults of an operation *)

(** X15.  When the transport raises, the operation lets the exception
    through after its one call; when the answer has status 200 and a body
    that [json.loads] refuses, the operation raises [JSONDecodeError], not
    [ApiRequestException]. *)
Theorem operation_faults
    (send : http_call -> http_result) (json_loads : string -> option json)
    (self : Trello.t) (op : operation) :
  (forall msg,
      send (call_of self op) = Failed msg ->
      run_operation send json_loads self op
      = (Raise (RequestException msg), [call_of self op]))
  /\ (forall r,
      send (call_of self op) = Responded r ->
      status_code r = 200%Z ->
      json_loads (text r) = None ->
      run_operation send json_loads self op
      = (Raise JSONDecodeError, [call_of self op])).
Proof.
  rewrite run_operation_answer. unfold answer. split.
  - intros msg ->. reflexivity.
  - intros r -> -> ->. reflexivity.
Qed.

Lemma operation_faults_witness :
  run_operation Sample.unreachable Fixture.decode Fixture.self ListBoards
  = (Raise (RequestException "no route"), [call_of Fixture.self ListBoards])
  /\ run_operation (Fixture.server Sample.ok) Sample.refuse Fixture.self ListBoards
     = (Raise JSONDecodeError, [call_of Fixture.self ListBoards]).
Proof.
  split.
  - apply (proj1 (operation_faults Sample.unreachable Fixture.decode
                                   Fixture.self ListBoards)).
    reflexivity.
  - apply (proj2 (operation_faults (Fixture.server Sample.ok) Sample.refuse
                                   Fixture.self ListBoards) Sample.ok);
      reflexivity.
Defined.

(** ** The tests *)

(** X16.  No test gets past the statement that builds its client: the
    dict of [getMockArgs] has no key ["secret"], so the statement raises
    [KeyError] whatever the environment holds, and [test_add_card] and
    [test_add_comment] end there without any HTTP call. *)
Theorem tests_stop_at_the_client
    (send : http_call -> http_result) (json_loads : string -> option json)
    (env : Cli.environ) :
  Tests.make_client env = (Raise (KeyError "secret"), [])
  /\ Tests.test_add_card send json_loads env = (Raise (KeyError "secret"), [])
  /\ Tests.test_add_comment send json_loads env = (Raise (KeyError "secret"), []).
Proof.
  repeat split.
Qed.
